(** * lease-web: the calculator page (src/app/page.tsx) and the engine's
      interface, embedded in Rocq.

    The page is a React client component.  Its helper functions
    ([formatMoney], [downloadBase64], [getDefaultDates]) are pure and are
    translated as functions; its event handlers update the component state,
    which is modelled as a record threaded through them.  The ECMAScript and
    web-platform functions the page calls ([toFixed], [padStart],
    [endsWith], [String.prototype.replace] with the page's regular
    expression, [atob]) are written out from their standards in [Module JS].

    The calculation engine behind /api/calculate (api/calculate.py,
    lib/lease_calculator.py) is not embedded.  The parts of it that the
    page's contract rests on are modelled from the specification in
    [Module Engine], each marked as such. *)

From Stdlib Require Import ZArith QArith Qround Qabs List String Ascii Bool Lia Lqa.
From stdpp Require Import list.

Import ListNotations.
Local Open Scope string_scope.
Local Open Scope Z_scope.

(* ===================================================================== *)
(** * The JavaScript runtime functions used by the page                    *)
(* ===================================================================== *)

Module JS.

(** A JavaScript number.  A finite double is a rational; the functions below
    depend on its exact value only, so the value is what is kept. *)
Inductive number : Type :=
| NaN
| Infinity (negative : bool)
| Num (q : Q).

(** What the engine decides and the standard leaves open or that is out of
    reach here: [Number::toString] on magnitudes of at least 10^21 (exponent
    notation), and the text of the TypeError raised by a property read on
    [null]. *)
Record runtime : Type := {
  number_toString_large : Q -> string;
  null_read_message : string -> string
}.

(** ** Decimal digits *)

Definition digit_char (d : N) : ascii := ascii_of_N (48 + d).

Definition is_digit (c : ascii) : bool :=
  let n := N_of_ascii c in ((48 <=? n) && (n <=? 57))%N.

Definition digit_value (c : ascii) : N := (N_of_ascii c - 48)%N.

(** [decimal_from fuel n acc]: the digits of [n], most significant first, in
    front of [acc]. *)
Fixpoint decimal_from (fuel : nat) (n : N) (acc : string) : string :=
  match fuel with
  | O => acc
  | S fuel' =>
      let acc' := String (digit_char (n mod 10)) acc in
      if (n <? 10)%N then acc' else decimal_from fuel' (n / 10) acc'
  end.

(** The decimal representation of a natural number, no leading zero
    ("0" for zero). *)
Definition decimal (n : N) : string :=
  decimal_from (S (N.to_nat (N.log2 n))) n "".

(** [String(v)] and [`${v}`] for an integral number below 10^21 in
    magnitude. *)
Definition String_of_int (v : Z) : string :=
  if v <? 0 then "-" ++ decimal (Z.to_N (- v)) else decimal (Z.to_N v).

(** ** String.prototype.padStart, endsWith *)

Fixpoint repeat_to (len : nat) (filler cur : string) : string :=
  match len with
  | O => ""
  | S len' =>
      match cur with
      | EmptyString =>
          match filler with
          | EmptyString => ""
          | String c rest => String c (repeat_to len' filler rest)
          end
      | String c rest => String c (repeat_to len' filler rest)
      end
  end.

Definition padStart (s : string) (maxLength : nat) (fillString : string) : string :=
  let stringLength := String.length s in
  if (maxLength <=? stringLength)%nat then s
  else if String.eqb fillString "" then s
  else repeat_to (maxLength - stringLength) fillString fillString ++ s.

Definition endsWith (s searchString : string) : bool :=
  let len := String.length s in
  let searchLength := String.length searchString in
  if (len <? searchLength)%nat then false
  else String.eqb (String.substring (len - searchLength) searchLength s) searchString.

(** ** Number.prototype.toFixed(2) *)

(** Step "let n be an integer for which n / 10^f - x is as close to zero as
    possible; if there are two such n, pick the larger n", for x >= 0 and
    f = 2. *)
Definition toFixed_n (x : Q) : Z := Qfloor (x * 100 + (1 # 2))%Q.

Fixpoint zeros (count : nat) : string :=
  match count with
  | O => ""
  | S count' => String "0" (zeros count')
  end.

(** [v.toFixed(2)], step by step as in ECMA-262 (Number.prototype.toFixed
    with fractionDigits f = 2). *)
Definition toFixed2 (rt : runtime) (v : number) : string :=
  match v with
  | NaN => "NaN"
  | Infinity false => "Infinity"
  | Infinity true => "-Infinity"
  | Num q =>
      let s := if Qnum q <? 0 then "-" else "" in
      let x := Qabs q in
      if Qle_bool (inject_Z (10 ^ 21)) x then s ++ number_toString_large rt x
      else
        let n := toFixed_n x in
        let m := if n =? 0 then "0" else decimal (Z.to_N n) in
        let k := String.length m in
        (* if k <= f: z is f + 1 - k zeros, m becomes z m, k becomes f + 1 *)
        let m := if (k <=? 2)%nat then zeros (2 + 1 - k) ++ m else m in
        let k := if (k <=? 2)%nat then (2 + 1)%nat else k in
        let a := String.substring 0 (k - 2) m in
        let b := String.substring (k - 2) 2 m in
        s ++ a ++ "." ++ b
  end.

(** ** The replacement  s.replace(/\B(?=(\d{3})+(?!\d))/g, ",")

    The pattern is empty apart from its assertions, so the global replace
    visits every position of [s] once and inserts a comma where both hold:
    - [\B]: the characters before and after the position are both word
      characters or both not (the ends of the string count as not);
    - [(?=(\d{3})+(?!\d))]: the maximal run of digits that starts at the
      position has a length that is a positive multiple of three. *)

Definition is_word_char (c : ascii) : bool :=
  let n := N_of_ascii c in
  (((48 <=? n) && (n <=? 57)) || ((65 <=? n) && (n <=? 90))
   || ((97 <=? n) && (n <=? 122)) || (n =? 95))%N.

Definition is_word (c : option ascii) : bool :=
  match c with Some c => is_word_char c | None => false end.

Fixpoint digit_run (s : string) : nat :=
  match s with
  | String c rest => if is_digit c then S (digit_run rest) else O
  | EmptyString => O
  end.

Definition lookahead_thousands (s : string) : bool :=
  let k := digit_run s in
  ((0 <? k) && (k mod 3 =? 0))%nat.

Fixpoint group_from (prev : option ascii) (s : string) : string :=
  match s with
  | EmptyString => ""
  | String c rest =>
      let here := Bool.eqb (is_word prev) (is_word (Some c)) && lookahead_thousands s in
      (if here then "," else "") ++ String c (group_from (Some c) rest)
  end.

Definition replace_thousands (s : string) : string := group_from None s.

(** ** JSON values, as [Response.json()] delivers them *)

#[warnings="-register-all"]
Inductive json : Type :=
| JNull
| JBool (b : bool)
| JNumber (v : number)
| JString (s : string)
| JArray (items : list json)
| JObject (members : list (string * json)).

(** ToBoolean. *)
Definition truthy (v : json) : bool :=
  match v with
  | JNull => false
  | JBool b => b
  | JNumber NaN => false
  | JNumber (Infinity _) => true
  | JNumber (Num q) => negb (Qeq_bool q 0)
  | JString s => negb (String.eqb s "")
  | JArray _ => true
  | JObject _ => true
  end.

Fixpoint assoc (k : string) (members : list (string * json)) : option json :=
  match members with
  | [] => None
  | (k', v) :: rest => if String.eqb k k' then Some v else assoc k rest
  end.

(** [v.k] for [v] other than [null]; [None] is [undefined].  The values of
    a JSON text have no own property outside an object's members, and none
    of the names read by the page is an inherited one. *)
Definition member (k : string) (v : json) : option json :=
  match v with
  | JObject members => assoc k members
  | _ => None
  end.

Definition truthy_opt (v : option json) : bool :=
  match v with Some v => truthy v | None => false end.

(** ** A decimal numeral read as a double (round to nearest, ties to even) *)

Definition binary64 (q : Q) : number :=
  let n := Z.abs (Qnum q) in
  let d := Zpos (Qden q) in
  let negative := Qnum q <? 0 in
  if n =? 0 then Num 0
  else
    (* n/d lies strictly between 2^(e0+52) and 2^(e0+54) *)
    let e0 := Z.log2 n - Z.log2 d - 53 in
    let above :=
      if 0 <=? e0 then 2 ^ 53 * d * 2 ^ e0 <=? n
      else 2 ^ 53 * d <=? n * 2 ^ (- e0) in
    let e1 := if above then e0 + 1 else e0 in
    let e := Z.max e1 (-1074) in
    let num := if 0 <=? e then n else n * 2 ^ (- e) in
    let den := if 0 <=? e then d * 2 ^ e else d in
    let m0 := num / den in
    let r := num mod den in
    let m :=
      if 2 * r <? den then m0
      else if den <? 2 * r then m0 + 1
      else if Z.even m0 then m0 else m0 + 1 in
    if 2 ^ 1024 <=? m * 2 ^ (Z.max e 0) then Infinity negative
    else
      let sm := if negative then - m else m in
      if 0 <=? e then Num (inject_Z (sm * 2 ^ e))
      else Num (sm # Z.to_pos (2 ^ (- e))).

(** ** atob: the forgiving-base64 decode of the WHATWG Infra standard *)

(** The string [atob] returns: one code unit per decoded byte. *)
Abbreviation binary_string := (list Z) (only parsing).

Definition is_ascii_whitespace (c : ascii) : bool :=
  let n := N_of_ascii c in
  ((n =? 9) || (n =? 10) || (n =? 12) || (n =? 13) || (n =? 32))%N.

Definition base64_value (c : ascii) : option Z :=
  let n := Z.of_N (N_of_ascii c) in
  if (65 <=? n) && (n <=? 90) then Some (n - 65)
  else if (97 <=? n) && (n <=? 122) then Some (n - 97 + 26)
  else if (48 <=? n) && (n <=? 57) then Some (n - 48 + 52)
  else if n =? 43 then Some 62
  else if n =? 47 then Some 63
  else None.

Definition is_equals (c : ascii) : bool := (N_of_ascii c =? 61)%N.

(** "If data's length divides by 4 leaving no remainder, then: if data ends
    with one or two U+003D (=) code points, then remove them from data." *)
Definition remove_padding (data : list ascii) : list ascii :=
  if (length data mod 4 =? 0)%nat then
    match rev data with
    | c1 :: c2 :: rest =>
        if is_equals c1 then
          if is_equals c2 then rev rest else rev (c2 :: rest)
        else data
    | _ => data
    end
  else data.

Fixpoint base64_values (data : list ascii) : option (list Z) :=
  match data with
  | [] => Some []
  | c :: rest =>
      match base64_value c, base64_values rest with
      | Some v, Some vs => Some (v :: vs)
      | _, _ => None
      end
  end.

(** The bit buffer of the standard: [buffer] holds [bits] bits; three bytes
    are emitted each time it reaches 24 bits, and a rest of 12 or 18 bits
    gives one or two bytes after its last 4 or 2 bits are dropped. *)
Fixpoint decode_buffer (values : list Z) (buffer bits : Z) : list Z :=
  match values with
  | [] =>
      if bits =? 12 then [(buffer / 16) mod 256]
      else if bits =? 18 then [(buffer / 4 / 256) mod 256; (buffer / 4) mod 256]
      else []
  | v :: rest =>
      let buffer := buffer * 64 + v in
      let bits := bits + 6 in
      if bits =? 24 then
        (buffer / 65536) mod 256 :: (buffer / 256) mod 256 :: buffer mod 256
          :: decode_buffer rest 0 0
      else decode_buffer rest buffer bits
  end.

(** [None]: atob throws an InvalidCharacterError. *)
Definition atob (data : string) : option binary_string :=
  let data := List.filter (fun c => negb (is_ascii_whitespace c)) (list_ascii_of_string data) in
  let data := remove_padding data in
  if (length data mod 4 =? 1)%nat then None
  else
    match base64_values data with
    | None => None
    | Some values => Some (decode_buffer values 0 0)
    end.

(** [s.charCodeAt(i)]; [None] is NaN (index out of range). *)
Definition charCodeAt (s : binary_string) (i : nat) : option Z := s !! i.

(** ToUint8, the conversion of a store into a Uint8Array. *)
Definition ToUint8 (v : option Z) : Z :=
  match v with
  | Some z => z mod 256
  | None => 0
  end.

(** ** Month and date strings *)

Definition digits_value (cs : list ascii) : Z :=
  fold_left (fun acc c => 10 * acc + Z.of_N (digit_value c)) cs 0.

(** The value of an  <input type="month">  with a four-digit year, "YYYY-MM":
    the year and the month (1 to 12) it denotes. *)
Definition parse_year_month (s : string) : option (Z * Z) :=
  match list_ascii_of_string s with
  | [y1; y2; y3; y4; dash; m1; m2] =>
      if forallb is_digit [y1; y2; y3; y4; m1; m2] && (N_of_ascii dash =? 45)%N then
        let m := digits_value [m1; m2] in
        if (1 <=? m) && (m <=? 12) then Some (digits_value [y1; y2; y3; y4], m) else None
      else None
  | _ => None
  end.

End JS.

(* ===================================================================== *)
(** * src/app/page.tsx                                                     *)
(* ===================================================================== *)

Module Page.
Import JS.

Inductive Status : Type := idle | uploading | done | error.

Definition Status_eqb (a b : Status) : bool :=
  match a, b with
  | idle, idle | uploading, uploading | done, done | error, error => true
  | _, _ => false
  end.

Record ContractSummary : Type := {
  customer : string;
  merchant_id : string;
  receivable : number;
  income : number;
  bank_matched : number;
  invoice_matched : number;
  notes : string
}.

(** The [files] member of [CalcResult]. *)
Record CalcFiles : Type := {
  lease : string;
  single : string;
  income_file : string   (* [income] in the source; the name is taken above *)
}.

Record CalcResult : Type := {
  summary : list ContractSummary;
  total_receivable : number;
  total_income : number;
  contract_count : number;
  files : CalcFiles
}.

(** ** The interfaces as shapes of a JSON value

    [data] is the untyped result of [resp.json()]; the interfaces above say
    which members the page reads from it and at which types. *)

Definition as_number (v : option json) : option number :=
  match v with Some (JNumber x) => Some x | _ => None end.

Definition as_string (v : option json) : option string :=
  match v with Some (JString x) => Some x | _ => None end.

Definition as_ContractSummary (v : json) : option ContractSummary :=
  match as_string (member "customer" v), as_string (member "merchant_id" v),
        as_number (member "receivable" v), as_number (member "income" v),
        as_number (member "bank_matched" v), as_number (member "invoice_matched" v),
        as_string (member "notes" v) with
  | Some c, Some m, Some r, Some i, Some b, Some iv, Some n =>
      Some {| customer := c; merchant_id := m; receivable := r; income := i;
              bank_matched := b; invoice_matched := iv; notes := n |}
  | _, _, _, _, _, _, _ => None
  end.

Fixpoint as_summary (rows : list json) : option (list ContractSummary) :=
  match rows with
  | [] => Some []
  | v :: rest =>
      match as_ContractSummary v, as_summary rest with
      | Some r, Some rs => Some (r :: rs)
      | _, _ => None
      end
  end.

Definition as_CalcFiles (v : option json) : option CalcFiles :=
  match v with
  | Some f =>
      match as_string (member "lease" f), as_string (member "single" f),
            as_string (member "income" f) with
      | Some l, Some s, Some i => Some {| lease := l; single := s; income_file := i |}
      | _, _, _ => None
      end
  | None => None
  end.

Definition as_CalcResult (data : json) : option CalcResult :=
  match member "summary" data, as_number (member "total_receivable" data),
        as_number (member "total_income" data), as_number (member "contract_count" data),
        as_CalcFiles (member "files" data) with
  | Some (JArray rows), Some tr, Some ti, Some cc, Some fs =>
      match as_summary rows with
      | Some rs =>
          Some {| summary := rs; total_receivable := tr; total_income := ti;
                  contract_count := cc; files := fs |}
      | None => None
      end
  | _, _, _, _, _ => None
  end.

(** ** formatMoney

    The argument is [None] when [n == null] ([null] or [undefined]). *)
Definition formatMoney (rt : runtime) (n : option number) : string :=
  match n with
  | None => "—"
  | Some NaN => "—"
  | Some v => "¥" ++ replace_thousands (toFixed2 rt v)
  end.

(** ** downloadBase64 *)

Record Blob : Type := {
  blob_bytes : list Z;
  blob_type : string
}.

(** The effect of the anchor click: the browser saves [saved_blob] under the
    name [saved_as]. *)
Record Download : Type := {
  saved_blob : Blob;
  saved_as : string
}.

(** The loop  for (i = 0; i < binary.length; i++) bytes[i] = binary.charCodeAt(i)
    over  bytes = new Uint8Array(binary.length). *)
Definition fill_bytes (binary : binary_string) : list Z :=
  foldl (fun (bytes : list Z) (i : nat) => <[ i := ToUint8 (charCodeAt binary i) ]> bytes)
        (replicate (length binary) 0)
        (seq 0 (length binary)).

(** [None]: [atob] threw, nothing is saved. *)
Definition downloadBase64 (b64 filename : string) : option Download :=
  match atob b64 with
  | None => None
  | Some binary =>
      let bytes := fill_bytes binary in
      let blob := {| blob_bytes := bytes;
                     blob_type := "application/vnd.openxmlformats-officedocument.spreadsheetml.sheet" |} in
      Some {| saved_blob := blob; saved_as := filename |}
  end.

(** ** getDefaultDates *)

(** What the function reads of  new Date(). *)
Record Date : Type := {
  getFullYear : Z;
  getMonth : Z
}.

Record DefaultDates : Type := {
  start : string;
  end_ : string
}.

Definition getDefaultDates (now : Date) : DefaultDates :=
  let startYear := getFullYear now in
  let startMonth := padStart (String_of_int (getMonth now + 1)) 2 "0" in
  let endYear := if 11 <=? getMonth now then getFullYear now + 1 else getFullYear now in
  let endMonth := padStart (String_of_int (((getMonth now + 1) mod 12) + 1)) 2 "0" in
  let start := String_of_int startYear ++ "-" ++ startMonth in
  let end_ :=
    String_of_int endYear ++ "-"
    ++ padStart (String_of_int (if 12 <? getMonth now + 2 then 1 else getMonth now + 2)) 2 "0" in
  {| start := start; end_ := end_ |}.

(** ** The component state *)

Record File : Type := {
  name : string;
  size : Z
}.

Record State : Type := {
  file : option File;
  startMonth : string;
  endMonth : string;
  status : Status;
  result : option json;      (* [None] is [null] *)
  errorMsg : json;
  isDragging : bool
}.

Definition setFile (v : option File) (st : State) : State :=
  {| file := v; startMonth := startMonth st; endMonth := endMonth st; status := status st;
     result := result st; errorMsg := errorMsg st; isDragging := isDragging st |}.
Definition setStartMonth (v : string) (st : State) : State :=
  {| file := file st; startMonth := v; endMonth := endMonth st; status := status st;
     result := result st; errorMsg := errorMsg st; isDragging := isDragging st |}.
Definition setEndMonth (v : string) (st : State) : State :=
  {| file := file st; startMonth := startMonth st; endMonth := v; status := status st;
     result := result st; errorMsg := errorMsg st; isDragging := isDragging st |}.
Definition setStatus (v : Status) (st : State) : State :=
  {| file := file st; startMonth := startMonth st; endMonth := endMonth st; status := v;
     result := result st; errorMsg := errorMsg st; isDragging := isDragging st |}.
Definition setResult (v : option json) (st : State) : State :=
  {| file := file st; startMonth := startMonth st; endMonth := endMonth st; status := status st;
     result := v; errorMsg := errorMsg st; isDragging := isDragging st |}.
Definition setErrorMsg (v : json) (st : State) : State :=
  {| file := file st; startMonth := startMonth st; endMonth := endMonth st; status := status st;
     result := result st; errorMsg := v; isDragging := isDragging st |}.
Definition setIsDragging (v : bool) (st : State) : State :=
  {| file := file st; startMonth := startMonth st; endMonth := endMonth st; status := status st;
     result := result st; errorMsg := errorMsg st; isDragging := v |}.

(** The state [Home] starts from. *)
Definition initial (now : Date) : State :=
  let defaults := getDefaultDates now in
  {| file := None; startMonth := start defaults; endMonth := end_ defaults; status := idle;
     result := None; errorMsg := JString ""; isDragging := false |}.

(** ** handleFileSelect, handleDrop *)

Definition handleFileSelect (f : File) (st : State) : State :=
  if negb (endsWith (name f) ".xlsx") then
    setStatus error (setErrorMsg (JString "请上传 .xlsx 格式的文件") st)
  else
    setResult None (setErrorMsg (JString "") (setStatus idle (setFile (Some f) st))).

(** [dropped] is  e.dataTransfer.files. *)
Definition handleDrop (dropped : list File) (st : State) : State :=
  let st := setIsDragging false st in
  match dropped with
  | f :: _ => handleFileSelect f st
  | [] => st
  end.

(** ** handleSubmit

    The function is asynchronous: [handleSubmit_send] is its part up to the
    call of [fetch], [handleSubmit_receive] the part that runs once the
    promises have settled. *)

Inductive FormValue : Type :=
| FormFile (f : File)
| FormText (s : string).

(** A FormData object: its entries, in the order of the [append] calls. *)
Definition FormData : Type := list (string * FormValue).

Definition append (k : string) (v : FormValue) (formData : FormData) : FormData :=
  (formData ++ [(k, v)])%list.

Record Request : Type := {
  url : string;
  method : string;
  body : FormData
}.

(** A thrown value; [e.message] is read only if [e instanceof Error]. *)
Inductive thrown : Type :=
| ErrorObject (message : string)
| NotAnError.

Record Response : Type := {
  resp_status : Z;
  resp_json : thrown + json     (* [await resp.json()]: rejects or gives the body *)
}.

(** [resp.ok]: the status is in the range 200 to 299 (Fetch standard). *)
Definition ok (resp : Response) : bool :=
  (200 <=? resp_status resp) && (resp_status resp <=? 299).

Inductive fetch_outcome : Type :=
| Rejected (e : thrown)
| Fulfilled (resp : Response).

Definition handleSubmit_send (st : State) : State * option Request :=
  match file st with
  | None => (setStatus error (setErrorMsg (JString "请先选择 Excel 文件") st), None)
  | Some f =>
      if String.eqb (startMonth st) "" || String.eqb (endMonth st) "" then
        (setStatus error (setErrorMsg (JString "请填写起始月和结束月") st), None)
      else
        let st' := setResult None (setErrorMsg (JString "") (setStatus uploading st)) in
        let formData : FormData := [] in
        let formData := append "file" (FormFile f) formData in
        let formData := append "start" (FormText (startMonth st ++ "-01")) formData in
        let formData := append "end" (FormText (endMonth st ++ "-01")) formData in
        (st', Some {| url := "/api/calculate"; method := "POST"; body := formData |})
  end.

(** The [catch] block. *)
Definition handleSubmit_catch (e : thrown) (st : State) : State :=
  let message := match e with ErrorObject m => m | NotAnError => "" end in
  setStatus error (setErrorMsg (JString ("网络错误，请稍后重试。" ++ message)) st).

Definition handleSubmit_receive (rt : runtime) (o : fetch_outcome) (st : State) : State :=
  match o with
  | Rejected e => handleSubmit_catch e st
  | Fulfilled resp =>
      match resp_json resp with
      | inl e => handleSubmit_catch e st
      | inr JNull =>
          (* [data.error] on [null] throws a TypeError, whichever of the two
             reads comes first *)
          handleSubmit_catch (ErrorObject (null_read_message rt "error")) st
      | inr data =>
          if negb (ok resp) || truthy_opt (member "error" data) then
            let shown :=
              match member "error" data with
              | Some e => if truthy e then e
                          else JString ("请求失败 (" ++ String_of_int (resp_status resp) ++ ")")
              | None => JString ("请求失败 (" ++ String_of_int (resp_status resp) ++ ")")
              end in
            setStatus error (setErrorMsg shown st)
          else
            setStatus done (setResult (Some data) st)
      end
  end.

(** One whole run of [handleSubmit] against a network that answers the
    request with [net], when no other handler runs between the sending of the
    request and its settling.  The source is asynchronous: the runs in which
    other handlers come in between are those of [Events.step], which has the
    two halves as separate events. *)
Definition handleSubmit (rt : runtime) (net : Request -> fetch_outcome) (st : State) : State :=
  match handleSubmit_send st with
  | (st', None) => st'
  | (st', Some req) => handleSubmit_receive rt (net req) st'
  end.

(** ** What [Home] renders of the state *)

Definition table_header : list string :=
  ["客户名称"; "商户编号"; "应收总额"; "收入总额"; "银行匹配"; "发票匹配"; "备注"].

(** One  <tr>  of the detail table: its seven  <td>  in order. *)
Definition render_row (rt : runtime) (row : ContractSummary) : list string :=
  [ customer row;
    merchant_id row;
    formatMoney rt (Some (receivable row));
    formatMoney rt (Some (income row));
    formatMoney rt (Some (bank_matched row));
    formatMoney rt (Some (invoice_matched row));
    if String.eqb (notes row) "" then "" else notes row ].

Record ResultsPanel : Type := {
  count_card : number;
  receivable_card : string;
  income_card : string;
  (* the detail table: header and rows; absent for an empty summary *)
  detail_table : option (list string * list (list string))
}.

Definition render_results (rt : runtime) (r : CalcResult) : ResultsPanel :=
  {| count_card := contract_count r;
     receivable_card := formatMoney rt (Some (total_receivable r));
     income_card := formatMoney rt (Some (total_income r));
     detail_table :=
       if (0 <? length (summary r))%nat
       then Some (table_header, map (render_row rt) (summary r))
       else None |}.

Inductive DownloadButton : Type := lease_button | single_button | income_button.

(** The [onClick] of the three download buttons. *)
Definition onClick_download (b : DownloadButton) (r : CalcResult) : option Download :=
  match b with
  | lease_button => downloadBase64 (lease (files r)) "lease.xlsx"
  | single_button => downloadBase64 (single (files r)) "single.xlsx"
  | income_button => downloadBase64 (income_file (files r)) "income.xlsx"
  end.

Inductive Panel : Type :=
| Hidden
| Shown (p : ResultsPanel)
| OffInterface.   (* [result] is truthy but not a [CalcResult]: not modelled *)

Record View : Type := {
  submit_disabled : bool;
  error_box : option json;     (* the red box with [errorMsg] *)
  results : Panel
}.

Definition Home (rt : runtime) (st : State) : View :=
  {| submit_disabled := Status_eqb (status st) uploading;
     error_box := if Status_eqb (status st) error then Some (errorMsg st) else None;
     results :=
       if Status_eqb (status st) done then
         match result st with
         | None => Hidden
         | Some data =>
             if truthy data then
               match as_CalcResult data with
               | Some r => Shown (render_results rt r)
               | None => OffInterface
               end
             else Hidden
         end
       else Hidden |}.

(** ** What React prints for [{errorMsg}]

    [error_box] holds the value that the JSX gives to React as the child of
    the red box.  React prints a string as it is and a number through
    ToString; [true], [false] and [null] print nothing; an array prints its
    elements one after the other; a plain object is not a valid child and
    makes the render throw (a value parsed from JSON is never a React
    element).  [results] says whether the panel is rendered: where it is
    [Hidden] for a stored body 0 or NaN, React prints that number in its
    place. *)





End Page.

(* ===================================================================== *)
(** * src/app/page.tsx: the event handlers wired up in [Home]               *)
(* ===================================================================== *)

Module Events.
Import JS Page.

(** The events that change the component: the handlers of the drop zone
    ([onDragOver], [onDragLeave], [onDrop]), of the hidden file input
    ([onChange], with [e.target.files]), of the two month inputs, of the
    submit button, and the settling of the [fetch] of a request that is in
    flight. *)
Inductive Event : Type :=
| DragOver
| DragLeave
| DropFiles (dropped : list File)
| InputChange (chosen : list File)
| StartMonthChange (value : string)
| EndMonthChange (value : string)
| SubmitClick
| Settled (o : fetch_outcome).

(** The component state together with the requests sent so far and the
    number of them whose [fetch] has not settled yet. *)
Record Session : Type := {
  ui : State;
  sent : list Request;
  in_flight : nat
}.

Definition on_ui (f : State -> State) (s : Session) : Session :=
  {| ui := f (ui s); sent := sent s; in_flight := in_flight s |}.

Definition step (rt : runtime) (e : Event) (s : Session) : Session :=
  match e with
  | DragOver => on_ui (setIsDragging true) s
  | DragLeave => on_ui (setIsDragging false) s
  | DropFiles dropped => on_ui (handleDrop dropped) s
  | InputChange chosen =>
      (* const f = e.target.files?.[0]; if (f) handleFileSelect(f) *)
      match chosen with
      | f :: _ => on_ui (handleFileSelect f) s
      | [] => s
      end
  | StartMonthChange value => on_ui (setStartMonth value) s
  | EndMonthChange value => on_ui (setEndMonth value) s
  | SubmitClick =>
      (* the button is disabled while the status is "uploading" *)
      if submit_disabled (Home rt (ui s)) then s
      else
        match handleSubmit_send (ui s) with
        | (st', None) => {| ui := st'; sent := sent s; in_flight := in_flight s |}
        | (st', Some req) =>
            {| ui := st'; sent := (sent s ++ [req])%list; in_flight := S (in_flight s) |}
        end
  | Settled o =>
      match in_flight s with
      | O => s
      | S n => {| ui := handleSubmit_receive rt o (ui s); sent := sent s; in_flight := n |}
      end
  end.

Definition run (rt : runtime) (events : list Event) (s : Session) : Session :=
  fold_left (fun s e => step rt e s) events s.

(** The session when [Home] is mounted. *)
Definition start (now : Date) : Session :=
  {| ui := initial now; sent := []; in_flight := 0 |}.

End Events.

(* ===================================================================== *)
(** * The calculation engine, as far as the page's contract needs it        *)
(* ===================================================================== *)

Module Engine.
Import JS.

(** ** Calendar *)

(** Modelled from the spec: an ISO calendar date (section 4.1, "Dates are
    ISO calendar dates"), in place of the date type of the engine
    (lib/lease_calculator.py), which is missing. *)
Record date : Type := {
  year : Z;
  month : Z;
  day : Z
}.

(** Modelled from the spec: the Gregorian calendar behind "calendar month"
    and "days" (the engine's calendar, lib/lease_calculator.py, is missing);
    here its leap years. *)
Definition is_leap (y : Z) : bool :=
  ((y mod 4 =? 0) && negb (y mod 100 =? 0)) || (y mod 400 =? 0).

(** Modelled from the spec: the number of days of a calendar month. *)
Definition days_in_month (y m : Z) : Z :=
  if m =? 2 then (if is_leap y then 29 else 28)
  else if (m =? 4) || (m =? 6) || (m =? 9) || (m =? 11) then 30
  else 31.

(** Modelled from the spec: the days of the proleptic Gregorian calendar
    before 1 January of year [y]. *)
Definition days_before_year (y : Z) : Z :=
  let p := y - 1 in 365 * p + p / 4 - p / 100 + p / 400.

(** Modelled from the spec: the days of year [y] before the first of month
    [m]. *)
Definition days_before_month (y m : Z) : Z :=
  fold_right Z.add 0 (map (fun k => days_in_month y (Z.of_nat k)) (seq 1 (Z.to_nat (m - 1)))).

(** Modelled from the spec: the day number of a date, so that "days" between
    dates ([expiry - delivery + 1], [delivery_date + k * 365 days]) are
    differences of integers. *)
Definition ordinal (d : date) : Z :=
  days_before_year (year d) + days_before_month (year d) (month d) + day d.

(** Modelled from the spec: a calendar month ("year-month", section 3) as
    one integer, [12 * year + (month - 1)]. *)
Definition month_index (d : date) : Z := 12 * year d + (month d - 1).

(** Modelled from the spec: a "first-of-month date" (section 6). *)
Definition first_of_month (mi : Z) : date :=
  {| year := mi / 12; month := mi mod 12 + 1; day := 1 |}.

(** Modelled from the spec: the day number of the first day of month [mi]. *)
Definition month_start (mi : Z) : Z := ordinal (first_of_month mi).

(** ** Data model (spec section 3) *)

(** Modelled from the spec: the Contract entity; [rents] is the ordered
    non-empty sequence of annual rent amounts, first contract-year first. *)
Record Contract : Type := {
  customer : string;
  merchant_id : string;
  delivery_date : date;
  expiry_date : date;          (* inclusive *)
  free_rent_days : Z;
  rents : list Q
}.

(** The same contract with another number of free-rent days. *)
Definition with_free_rent_days (f : Z) (c : Contract) : Contract :=
  {| customer := customer c; merchant_id := merchant_id c;
     delivery_date := delivery_date c; expiry_date := expiry_date c;
     free_rent_days := f; rents := rents c |}.

(** Modelled from the spec: the inclusive range [start_month, end_month] of a
    CalculationRequest, both given as first-of-month dates (section 6). *)
Record MonthRange : Type := {
  start_month : date;
  end_month : date
}.

(** Modelled from the spec: the months of the range, first to last, "both
    inclusive". *)
Definition months_in_range (r : MonthRange) : list Z :=
  let a := month_index (start_month r) in
  let b := month_index (end_month r) in
  map (fun k => a + Z.of_nat k) (seq 0 (Z.to_nat (b - a + 1))).

(** ** Income Amortizer (spec section 4.4) *)

(** Modelled from the spec: "sum" over amounts, at full precision. *)
Definition Qsum (l : list Q) : Q := fold_right Qplus 0%Q l.

(** Modelled from the spec: [total_lease_days = expiry - delivery + 1]. *)
Definition total_lease_days (c : Contract) : Z :=
  ordinal (expiry_date c) - ordinal (delivery_date c) + 1.

(** Modelled from the spec: the contract-year of a day, counted from 0; the
    boundaries are [delivery_date + k * 365 days] (section 4.2). *)
Definition contract_year_of (c : Contract) (d : Z) : Z :=
  (d - ordinal (delivery_date c)) / 365.

(** Modelled from the spec: the rent of a contract-year; years beyond the
    last supplied one reuse the last supplied year's rate (section 4.2). *)
Definition rent_amount_for (c : Contract) (k : Z) : Q :=
  List.nth (Z.to_nat k) (rents c) (List.last (rents c) 0%Q).

(** Modelled from the spec: the days of "the full lease span", [delivery] to
    [expiry], as day numbers. *)
Definition lease_days (c : Contract) : list Z :=
  map (fun i => ordinal (delivery_date c) + Z.of_nat i)
      (seq 0 (Z.to_nat (total_lease_days c))).

(** Modelled from the spec: [total_contract_value] = the sum over the full
    lease span, for each day, of [rent_amount_for(contract_year_of(day)) / 365],
    free-rent days included. *)
Definition total_contract_value (c : Contract) : Q :=
  Qsum (map (fun d => rent_amount_for c (contract_year_of c d) / 365)%Q (lease_days c)).

(** Modelled from the spec: [daily_income_rate = total_contract_value /
    total_lease_days]. *)
Definition daily_income_rate (c : Contract) : Q :=
  (total_contract_value c / inject_Z (total_lease_days c))%Q.

(** Modelled from the spec: the "days of that month within the lease term". *)
Definition term_days_in_month (c : Contract) (mi : Z) : Z :=
  Z.max 0 (Z.min (month_start (mi + 1) - 1) (ordinal (expiry_date c))
           - Z.max (month_start mi) (ordinal (delivery_date c)) + 1).

(** Modelled from the spec: [month_income = daily_income_rate * (days of that
    month within the lease term and requested range)], no free-rent
    carve-out. *)
Definition month_income (c : Contract) (mi : Z) : Q :=
  (daily_income_rate c * inject_Z (term_days_in_month c mi))%Q.

(** Modelled from the spec: [total_income(contract, range)] sums the month
    cells of the range. *)
Definition total_income (c : Contract) (r : MonthRange) : Q :=
  Qsum (map (month_income c) (months_in_range r)).

(** ** The request parameters (spec section 6) *)

(** Modelled from the spec: the reading of a date parameter, an ISO calendar
    date "YYYY-MM-DD" (api/calculate.py is missing). *)
Definition parse_iso_date (s : string) : option date :=
  match list_ascii_of_string s with
  | [y1; y2; y3; y4; dash1; m1; m2; dash2; d1; d2] =>
      if forallb is_digit [y1; y2; y3; y4; m1; m2; d1; d2]
         && (N_of_ascii dash1 =? 45)%N && (N_of_ascii dash2 =? 45)%N then
        let y := digits_value [y1; y2; y3; y4] in
        let m := digits_value [m1; m2] in
        let d := digits_value [d1; d2] in
        if (1 <=? m) && (m <=? 12) && (1 <=? d) && (d <=? days_in_month y m)
        then Some {| year := y; month := m; day := d |}
        else None
      else None
  | _ => None
  end.

(** ** Report Builder (spec section 4.6) and the response (section 6) *)

(** Modelled from the spec: ContractSummaryRow (section 3). *)
Record ContractSummaryRow : Type := {
  row_customer : string;
  row_merchant_id : string;
  row_total_receivable : Q;
  row_total_income : Q;
  row_bank_matched : Q;
  row_invoice_matched : Q;
  row_notes : string
}.

(** Modelled from the spec: what the stages before the Report Builder
    (sections 4.2 to 4.5) hand over for one contract, its summary row and its
    month cells over the range. *)
Record ContractFigures : Type := {
  summary_row : ContractSummaryRow;
  receivable_cells : list Q;
  income_cells : list Q
}.

(** Modelled from the spec: the three tables and the aggregates of section
    4.6. *)
Record Report : Type := {
  summary_table : list ContractSummaryRow;
  receivable_matrix : list (list Q);
  income_matrix : list (list Q);
  report_total_receivable : Q;
  report_total_income : Q;
  report_contract_count : Z
}.

(** Modelled from the spec: "one row per contract", the two monthly
    matrices with "rows = contracts", the aggregates "across all included
    contracts", "row order follows input order". *)
Definition build_report (figures : list ContractFigures) : Report :=
  {| summary_table := map summary_row figures;
     receivable_matrix := map receivable_cells figures;
     income_matrix := map income_cells figures;
     report_total_receivable :=
       Qsum (map (fun f => row_total_receivable (summary_row f)) figures);
     report_total_income :=
       Qsum (map (fun f => row_total_income (summary_row f)) figures);
     report_contract_count := Z.of_nat (length figures) |}.

(** Modelled from the spec: "encoded for transport" (section 6) is Base64
    (RFC 4648), the encoding that the page's [atob] undoes; the encoder of
    api/calculate.py is missing. *)
Definition base64_char (v : Z) : ascii :=
  if v <? 26 then ascii_of_N (Z.to_N (65 + v))
  else if v <? 52 then ascii_of_N (Z.to_N (97 + (v - 26)))
  else if v <? 62 then ascii_of_N (Z.to_N (48 + (v - 52)))
  else if v =? 62 then ascii_of_N 43
  else ascii_of_N 47.

(** A byte of a workbook as a number. *)
Definition byte_value (b : ascii) : Z := Z.of_N (N_of_ascii b).

Fixpoint base64_encode (bytes : list ascii) : string :=
  match bytes with
  | [] => ""
  | [b0] =>
      let n := byte_value b0 * 16 in
      String (base64_char (n / 64)) (String (base64_char (n mod 64)) "==")
  | [b0; b1] =>
      let n := (byte_value b0 * 256 + byte_value b1) * 4 in
      String (base64_char (n / 4096)) (String (base64_char ((n / 64) mod 64))
        (String (base64_char (n mod 64)) "="))
  | b0 :: b1 :: b2 :: rest =>
      let n := byte_value b0 * 65536 + byte_value b1 * 256 + byte_value b2 in
      String (base64_char (n / 262144)) (String (base64_char ((n / 4096) mod 64))
        (String (base64_char ((n / 64) mod 64)) (String (base64_char (n mod 64))
          (base64_encode rest))))
  end.

Section Response.

(** The workbook serialisation itself is left open by the spec ("serializes
    each table to an independently downloadable workbook byte stream"). *)
Variable workbook_of_summary : list ContractSummaryRow -> list ascii.
Variable workbook_of_matrix : list (list Q) -> list ascii.

(** Modelled from the spec: a summary row in the response, under the member
    names of the page's [ContractSummary]. *)
Definition row_json (r : ContractSummaryRow) : json :=
  JObject [ ("customer", JString (row_customer r));
            ("merchant_id", JString (row_merchant_id r));
            ("receivable", JNumber (binary64 (row_total_receivable r)));
            ("income", JNumber (binary64 (row_total_income r)));
            ("bank_matched", JNumber (binary64 (row_bank_matched r)));
            ("invoice_matched", JNumber (binary64 (row_invoice_matched r)));
            ("notes", JString (row_notes r)) ].

(** Modelled from the spec: the body of a successful response, "a response
    containing contract_count, total_receivable, total_income, a summary
    array of per-contract rows, and three workbook byte streams (summary /
    monthly-receivable / monthly-income) encoded for transport"
    (api/calculate.py is missing).  The member names are the ones the page
    reads. *)
Definition success_body (rep : Report) : json :=
  JObject [ ("summary", JArray (map row_json (summary_table rep)));
            ("total_receivable", JNumber (binary64 (report_total_receivable rep)));
            ("total_income", JNumber (binary64 (report_total_income rep)));
            ("contract_count", JNumber (binary64 (inject_Z (report_contract_count rep))));
            ("files", JObject
               [ ("lease", JString (base64_encode (workbook_of_summary (summary_table rep))));
                 ("single", JString (base64_encode (workbook_of_matrix (receivable_matrix rep))));
                 ("income", JString (base64_encode (workbook_of_matrix (income_matrix rep)))) ]) ].

End Response.

End Engine.

(* ===================================================================== *)
(** * Statement vocabulary                                                 *)
(* ===================================================================== *)

(** A runtime to evaluate examples with; none of the examples reaches the
    two functions it leaves open. *)
Definition sample_runtime : JS.runtime :=
  {| JS.number_toString_large := fun _ => "1e+21";
     JS.null_read_message := fun k => "Cannot read properties of null" |}.

(** The month after month [m] of year [y]. *)
Definition next_month (ym : Z * Z) : Z * Z :=
  let (y, m) := ym in if m =? 12 then (y + 1, 1) else (y, m + 1).


(** The body has a member named [error], whatever its value. *)
Definition carries_error_field (data : JS.json) : bool :=
  match JS.member "error" data with Some _ => true | None => false end.





Definition sample_file : Page.File := {| Page.name := "contracts.xlsx"; Page.size := 20480 |}.

Definition sample_state : Page.State :=
  Page.setFile (Some sample_file)
    (Page.initial {| Page.getFullYear := 2026; Page.getMonth := 10 |}).

Definition sample_row : Page.ContractSummary :=
  {| Page.customer := "ABC Co"; Page.merchant_id := "B1-01c";
     Page.receivable := JS.Num (2460000 # 100); Page.income := JS.Num (2460000 # 100);
     Page.bank_matched := JS.Num 0; Page.invoice_matched := JS.Num 0;
     Page.notes := "" |}.

Definition sample_row_json : JS.json :=
  JS.JObject [ ("customer", JS.JString "ABC Co"); ("merchant_id", JS.JString "B1-01c");
               ("receivable", JS.JNumber (JS.Num (2460000 # 100)));
               ("income", JS.JNumber (JS.Num (2460000 # 100)));
               ("bank_matched", JS.JNumber (JS.Num 0));
               ("invoice_matched", JS.JNumber (JS.Num 0));
               ("notes", JS.JString "") ].

Definition sample_members : list (string * JS.json) :=
  [ ("summary", JS.JArray [sample_row_json]);
    ("total_receivable", JS.JNumber (JS.Num (2460000 # 100)));
    ("total_income", JS.JNumber (JS.Num (2460000 # 100)));
    ("contract_count", JS.JNumber (JS.Num 1));
    ("files", JS.JObject [ ("lease", JS.JString "TWFu");
                           ("single", JS.JString "TWE=");
                           ("income", JS.JString "TQ==") ]) ].

Definition sample_body : JS.json := JS.JObject sample_members.

(** A complete result that also has an [error] member, set to [null]. *)
Definition body_with_null_error : JS.json :=
  JS.JObject (("error", JS.JNull) :: sample_members).

Definition answer_with (status : Z) (data : JS.json) : Page.Request -> Page.fetch_outcome :=
  fun _ => Page.Fulfilled {| Page.resp_status := status; Page.resp_json := inr data |}.




(** A summary row of the engine as the page holds it once the response is
    parsed: every amount is the double nearest to the amount sent. *)
Definition received_row (r : Engine.ContractSummaryRow) : Page.ContractSummary :=
  {| Page.customer := Engine.row_customer r;
     Page.merchant_id := Engine.row_merchant_id r;
     Page.receivable := JS.binary64 (Engine.row_total_receivable r);
     Page.income := JS.binary64 (Engine.row_total_income r);
     Page.bank_matched := JS.binary64 (Engine.row_bank_matched r);
     Page.invoice_matched := JS.binary64 (Engine.row_invoice_matched r);
     Page.notes := Engine.row_notes r |}.

Definition sample_figures : list Engine.ContractFigures :=
  [ {| Engine.summary_row :=
         {| Engine.row_customer := "ABC Co"; Engine.row_merchant_id := "B1-01c";
            Engine.row_total_receivable := 24600; Engine.row_total_income := 24600;
            Engine.row_bank_matched := 0; Engine.row_invoice_matched := 0;
            Engine.row_notes := "" |};
       Engine.receivable_cells := [12000; 12600]%Q;
       Engine.income_cells := [12300; 12300]%Q |} ].

Definition sample_result : Page.CalcResult :=
  {| Page.summary := [sample_row];
     Page.total_receivable := JS.Num (2460000 # 100);
     Page.total_income := JS.Num (2460000 # 100);
     Page.contract_count := JS.Num 1;
     Page.files := {| Page.lease := "TWFu"; Page.single := "TWE="; Page.income_file := "TQ==" |} |}.

Definition is_byte (z : Z) : Prop := 0 <= z < 256.

(** The month, 1 to 12, that a two-digit string "MM" denotes. *)
Definition read_month (s : string) : option Z :=
  match list_ascii_of_string s with
  | [m1; m2] =>
      if JS.is_digit m1 && JS.is_digit m2 then
        let m := JS.digits_value [m1; m2] in
        if (1 <=? m) && (m <=? 12) then Some m else None
      else None
  | _ => None
  end.

(** ** Reading a displayed amount *)

Definition is_comma (c : ascii) : bool := (N_of_ascii c =? 44)%N.
Definition is_minus (c : ascii) : bool := (N_of_ascii c =? 45)%N.
Definition is_point (c : ascii) : bool := (N_of_ascii c =? 46)%N.

Fixpoint strip_prefix (p cs : list ascii) : option (list ascii) :=
  match p, cs with
  | [], _ => Some cs
  | a :: p', c :: cs' => if Ascii.eqb a c then strip_prefix p' cs' else None
  | _ :: _, [] => None
  end.

(** The amount in cents that a money string of the page denotes: the yen
    sign, an optional minus sign, the integer digits (read without their
    thousands separators), a point and two decimals. *)
Definition displayed_cents (s : string) : option Z :=
  match strip_prefix (list_ascii_of_string "¥") (list_ascii_of_string s) with
  | None => None
  | Some shown =>
      let plain := List.filter (fun c => negb (is_comma c)) shown in
      let negative := match plain with c :: _ => is_minus c | [] => false end in
      let magnitude := if negative then List.tl plain else plain in
      let whole := take (length magnitude - 3) magnitude in
      match drop (length magnitude - 3) magnitude with
      | [p; d1; d2] =>
          if is_point p && JS.is_digit d1 && JS.is_digit d2
             && forallb JS.is_digit whole && (0 <? length whole)%nat
          then
            let cents := JS.digits_value whole * 100 + JS.digits_value [d1; d2] in
            Some (if negative then - cents else cents)
          else None
      | _ => None
      end
  end.

(** [c] cents is [x] rounded half up to two decimals: the nearest multiple of
    0.01, and of two equally near ones the one away from zero. *)
Definition is_half_up_cents (x : Q) (c : Z) : Prop :=
  (inject_Z (Z.abs c) - (1 # 2) <= Qabs x * 100)%Q /\
  (Qabs x * 100 < inject_Z (Z.abs c) + (1 # 2))%Q /\
  ((0 <= x)%Q -> 0 <= c) /\ ((x <= 0)%Q -> c <= 0).

(** ** The example contract of the specification *)

Definition example_contract (free : Z) : Engine.Contract :=
  {| Engine.customer := "ABC Co"; Engine.merchant_id := "B1-01c";
     Engine.delivery_date := {| Engine.year := 2025; Engine.month := 1; Engine.day := 1 |};
     Engine.expiry_date := {| Engine.year := 2026; Engine.month := 12; Engine.day := 31 |};
     Engine.free_rent_days := free;
     Engine.rents := [12000; 12600]%Q |}.

Definition example_range : Engine.MonthRange :=
  {| Engine.start_month := {| Engine.year := 2025; Engine.month := 1; Engine.day := 1 |};
     Engine.end_month := {| Engine.year := 2026; Engine.month := 12; Engine.day := 1 |} |}.

(** The range covers the whole lease term of the contract. *)
Definition covers_term (r : Engine.MonthRange) (c : Engine.Contract) : Prop :=
  Engine.month_start (Engine.month_index (Engine.start_month r))
    <= Engine.ordinal (Engine.delivery_date c) /\
  Engine.ordinal (Engine.expiry_date c)
    < Engine.month_start (Engine.month_index (Engine.end_month r) + 1).

(** Days of the interval from [x] to [y - 1] that lie between [lo] and [hi]. *)
Definition overlap (lo hi x y : Z) : Z :=
  Z.max 0 (Z.min (y - 1) hi - Z.max x lo + 1).

(** ** The parts of an encoded workbook *)

(** The six-bit values that [base64_encode] prints, and the padding it puts
    after them. *)
Fixpoint sextets (bytes : list ascii) : list Z :=
  match bytes with
  | [] => []
  | [b0] =>
      let n := Engine.byte_value b0 * 16 in
      [n / 64; n mod 64]
  | [b0; b1] =>
      let n := (Engine.byte_value b0 * 256 + Engine.byte_value b1) * 4 in
      [n / 4096; (n / 64) mod 64; n mod 64]
  | b0 :: b1 :: b2 :: rest =>
      let n := Engine.byte_value b0 * 65536 + Engine.byte_value b1 * 256
               + Engine.byte_value b2 in
      n / 262144 :: (n / 4096) mod 64 :: (n / 64) mod 64 :: n mod 64 :: sextets rest
  end.

Fixpoint padding (bytes : list ascii) : list ascii :=
  match bytes with
  | [] => []
  | [_] => ["="%char; "="%char]
  | [_; _] => ["="%char]
  | _ :: _ :: _ :: rest => padding rest
  end.

Definition is_sextet (v : Z) : Prop := 0 <= v < 64.

Definition xlsx_type : string :=
  "application/vnd.openxmlformats-officedocument.spreadsheetml.sheet".

(** ** Thousands grouping *)

Definition three_digits (r : N) : string :=
  String (JS.digit_char (r / 100))
    (String (JS.digit_char ((r / 10) mod 10)) (String (JS.digit_char (r mod 10)) "")).

Fixpoint grouped_from (fuel : nat) (n : N) : string :=
  match fuel with
  | O => ""
  | S fuel' =>
      if (n <? 1000)%N then JS.decimal n
      else grouped_from fuel' (n / 1000) ++ "," ++ three_digits (n mod 1000)
  end.

(** The digits of [n] in groups of three from the right, with commas between
    the groups: 1234567 gives 1,234,567. *)
Definition grouped (n : N) : string := grouped_from (S (N.to_nat (N.log2 n))) n.

(** What the replacement makes of a run of digits [ds] that is followed by
    [r] more digits. *)
Fixpoint group_digits (prev : option ascii) (ds : string) (r : nat) : string :=
  match ds with
  | EmptyString => ""
  | String c rest =>
      let k := (String.length ds + r)%nat in
      (if Bool.eqb (JS.is_word prev) (JS.is_word (Some c))
          && ((0 <? k) && (k mod 3 =? 0))%nat
       then "," else "")
      ++ String c (group_digits (Some c) rest r)
  end.

Fixpoint last_char (prev : option ascii) (s : string) : option ascii :=
  match s with
  | EmptyString => prev
  | String c rest => last_char (Some c) rest
  end.

(** ** What holds of every session *)

Definition xlsx_request (req : Page.Request) : Prop :=
  exists (f : Page.File) (startMonth endMonth : string),
    req = {| Page.url := "/api/calculate"; Page.method := "POST";
             Page.body := [ ("file", Page.FormFile f);
                            ("start", Page.FormText (startMonth ++ "-01"));
                            ("end", Page.FormText (endMonth ++ "-01")) ] |} /\
    JS.endsWith (Page.name f) ".xlsx" = true /\
    startMonth <> "" /\ endMonth <> "".

Definition session_invariant (s : Events.Session) : Prop :=
  (forall f, Page.file (Events.ui s) = Some f -> JS.endsWith (Page.name f) ".xlsx" = true) /\
  Forall xlsx_request (Events.sent s) /\
  (Events.in_flight s <= length (Events.sent s))%nat /\
  (Page.status (Events.ui s) = Page.idle ->
     Page.result (Events.ui s) = None /\ Page.errorMsg (Events.ui s) = JS.JString "") /\
  (Page.status (Events.ui s) = Page.uploading ->
     (1 <= Events.in_flight s)%nat /\ Page.result (Events.ui s) = None /\
     Page.errorMsg (Events.ui s) = JS.JString "" /\ Page.file (Events.ui s) <> None) /\
  (Page.status (Events.ui s) = Page.done -> Page.result (Events.ui s) <> None) /\
  (Page.status (Events.ui s) = Page.error -> JS.truthy (Page.errorMsg (Events.ui s)) = true).

(* ===================================================================== *)
(** * Facts about the runtime functions                                    *)
(* ===================================================================== *)

(** Linear arithmetic with quotients and remainders by constants. *)
Ltac lia_div := zify; Z.to_euclidean_division_equations; lia.

Section StringFacts.

Lemma string_app_nil_r (s : string) : s ++ "" = s.
Proof. induction s as [|c s IH]; simpl; [reflexivity | now rewrite IH]. Qed.

Lemma string_app_assoc (a b c : string) : (a ++ b) ++ c = a ++ (b ++ c).
Proof. induction a as [|x a IH]; simpl; [reflexivity | now rewrite IH]. Qed.

Lemma string_length_app (a b : string) :
  String.length (a ++ b) = (String.length a + String.length b)%nat.
Proof. induction a as [|x a IH]; simpl; [reflexivity | now rewrite IH]. Qed.

Lemma substring_all (s : string) : String.substring 0 (String.length s) s = s.
Proof. induction s as [|c s IH]; simpl; [reflexivity | now rewrite IH]. Qed.

Lemma substring_prefix (a b : string) :
  String.substring 0 (String.length a) (a ++ b) = a.
Proof.
  induction a as [|x a IH]; simpl.
  - destruct b; reflexivity.
  - now rewrite IH.
Qed.

Lemma substring_suffix (a b : string) :
  String.substring (String.length a) (String.length b) (a ++ b) = b.
Proof.
  induction a as [|x a IH]; simpl; [apply substring_all | exact IH].
Qed.

Lemma list_ascii_app (a b : string) :
  list_ascii_of_string (a ++ b) = (list_ascii_of_string a ++ list_ascii_of_string b)%list.
Proof. induction a as [|x a IH]; simpl; [reflexivity | now rewrite IH]. Qed.

End StringFacts.

(** [endsWith] holds exactly of the strings that have the suffix. *)
Lemma endsWith_suffix (s suffix : string) :
  JS.endsWith s suffix = true <-> exists p, s = p ++ suffix.
Proof.
  unfold JS.endsWith. split.
  - destruct (Nat.ltb_spec (String.length s) (String.length suffix)) as [Hlt|Hle];
      [discriminate|].
    intros H. apply String.eqb_eq in H.
    exists (String.substring 0 (String.length s - String.length suffix) s).
    rewrite <- H at 2.
    clear H. revert Hle. generalize (String.length suffix) as k. intros k.
    induction s as [|c s IH]; intros Hle; simpl in *.
    + replace k with 0%nat by lia. reflexivity.
    + destruct (Nat.eq_dec k (S (String.length s))) as [->|Hne].
      * rewrite Nat.sub_diag. simpl. now rewrite substring_all.
      * replace (S (String.length s) - k)%nat with (S (String.length s - k)) by lia.
        simpl. f_equal. apply IH. lia.
  - intros [p ->]. rewrite string_length_app.
    destruct (Nat.ltb_spec (String.length p + String.length suffix) (String.length suffix));
      [lia|].
    replace (String.length p + String.length suffix - String.length suffix)%nat
      with (String.length p) by lia.
    rewrite substring_suffix. apply String.eqb_refl.
Qed.

(** ** Decimal digits *)

Lemma decimal_from_app (fuel : nat) (n : N) (acc : string) :
  JS.decimal_from fuel n acc = JS.decimal_from fuel n "" ++ acc.
Proof.
  revert n acc. induction fuel as [|fuel IH]; intros n acc; cbn [JS.decimal_from].
  - reflexivity.
  - destruct (n <? 10)%N; [reflexivity|].
    rewrite IH, (IH _ (String _ "")), string_app_assoc. reflexivity.
Qed.

(** Fuel beyond the number of binary digits changes nothing. *)
Lemma decimal_from_stable (fuel k : nat) (n : N) (acc : string) :
  (1 <= fuel)%nat -> (n < 2 ^ N.of_nat fuel)%N ->
  JS.decimal_from (fuel + k) n acc = JS.decimal_from fuel n acc.
Proof.
  revert n acc. induction fuel as [|fuel IH]; intros n acc Hfuel Hn; [lia|].
  cbn [Nat.add JS.decimal_from].
  destruct (N.ltb_spec n 10) as [Hsmall|Hbig]; [reflexivity|].
  destruct fuel as [|fuel].
  - change (2 ^ N.of_nat 1)%N with 2%N in Hn. lia.
  - apply IH; [lia|].
    rewrite Nat2N.inj_succ, N.pow_succ_r' in Hn.
    apply N.Div0.div_lt_upper_bound. lia.
Qed.

Lemma log2_fuel (n : N) : (n < 2 ^ N.of_nat (S (N.to_nat (N.log2 n))))%N.
Proof.
  rewrite Nat2N.inj_succ, N2Nat.id.
  destruct (N.eq_dec n 0%N) as [->|Hn]; [reflexivity|].
  apply N.log2_spec. lia.
Qed.

Lemma decimal_small (n : N) :
  (n < 10)%N -> JS.decimal n = String (JS.digit_char n) "".
Proof.
  intros Hn. unfold JS.decimal. cbn [JS.decimal_from].
  destruct (N.ltb_spec n 10); [|lia]. now rewrite N.mod_small.
Qed.

Lemma decimal_step (n : N) :
  (10 <= n)%N ->
  JS.decimal n = JS.decimal (n / 10) ++ String (JS.digit_char (n mod 10)) "".
Proof.
  intros Hn. unfold JS.decimal at 1. cbn [JS.decimal_from].
  destruct (N.ltb_spec n 10); [lia|].
  rewrite decimal_from_app. f_equal.
  assert (Hlt : (N.log2 (n / 10) < N.log2 n)%N).
  { apply N.log2_lt_pow2.
    - apply N.div_str_pos. lia.
    - pose proof (N.log2_spec n ltac:(lia)) as [_ Hhi].
      rewrite N.pow_succ_r' in Hhi.
      apply N.Div0.div_lt_upper_bound. lia. }
  replace (N.to_nat (N.log2 n))
    with (S (N.to_nat (N.log2 (n / 10))) + (N.to_nat (N.log2 n) - S (N.to_nat (N.log2 (n / 10)))))%nat
    by lia.
  unfold JS.decimal. apply decimal_from_stable; [lia | apply log2_fuel].
Qed.

Lemma digit_char_value (d : N) : (d < 10)%N -> JS.digit_value (JS.digit_char d) = d.
Proof.
  intros Hd. unfold JS.digit_value, JS.digit_char.
  rewrite N_ascii_embedding by lia. lia.
Qed.

Lemma digit_char_is_digit (d : N) : (d < 10)%N -> JS.is_digit (JS.digit_char d) = true.
Proof.
  intros Hd. unfold JS.is_digit, JS.digit_char.
  rewrite N_ascii_embedding by lia.
  apply andb_true_intro. split; apply N.leb_le; lia.
Qed.

Lemma digits_value_snoc (cs : list ascii) (c : ascii) :
  JS.digits_value (cs ++ [c]) = 10 * JS.digits_value cs + Z.of_N (JS.digit_value c).
Proof. unfold JS.digits_value. now rewrite fold_left_app. Qed.

(** Reading the digits of [n] gives [n] back. *)
Lemma decimal_value (n : N) :
  JS.digits_value (list_ascii_of_string (JS.decimal n)) = Z.of_N n.
Proof.
  induction n as [n IH] using (well_founded_induction N.lt_wf_0).
  destruct (N.lt_ge_cases n 10) as [Hsmall|Hbig].
  - rewrite decimal_small by exact Hsmall.
    cbn. rewrite digit_char_value by exact Hsmall. lia.
  - rewrite decimal_step, list_ascii_app by exact Hbig.
    cbn [list_ascii_of_string]. rewrite digits_value_snoc, IH.
    + rewrite digit_char_value by (apply N.mod_lt; lia).
      rewrite (N.div_mod n 10) at 3 by lia. lia.
    + apply N.div_lt; lia.
Qed.

Lemma decimal_all_digits (n : N) :
  forallb JS.is_digit (list_ascii_of_string (JS.decimal n)) = true.
Proof.
  induction n as [n IH] using (well_founded_induction N.lt_wf_0).
  destruct (N.lt_ge_cases n 10) as [Hsmall|Hbig].
  - rewrite decimal_small by exact Hsmall.
    cbn. now rewrite digit_char_is_digit.
  - rewrite decimal_step, list_ascii_app, forallb_app by exact Hbig.
    rewrite IH by (apply N.div_lt; lia).
    cbn. rewrite digit_char_is_digit; [reflexivity | apply N.mod_lt; lia].
Qed.

(* ===================================================================== *)
(** * The page's handlers                                                  *)
(* ===================================================================== *)

(** C8: a file whose name does not end in ".xlsx" leaves the stored file (and
    the rest of the state) as it is and sets the status to error with the
    message; a file whose name ends in ".xlsx" is stored, the status becomes
    idle, the message is cleared and the result is cleared. *)
Theorem handleFileSelect_by_extension (f : Page.File) (st : Page.State) :
  (JS.endsWith (Page.name f) ".xlsx" = false ->
     Page.file (Page.handleFileSelect f st) = Page.file st /\
     Page.status (Page.handleFileSelect f st) = Page.error /\
     Page.errorMsg (Page.handleFileSelect f st) = JS.JString "请上传 .xlsx 格式的文件" /\
     Page.result (Page.handleFileSelect f st) = Page.result st) /\
  (JS.endsWith (Page.name f) ".xlsx" = true ->
     Page.file (Page.handleFileSelect f st) = Some f /\
     Page.status (Page.handleFileSelect f st) = Page.idle /\
     Page.errorMsg (Page.handleFileSelect f st) = JS.JString "" /\
     Page.result (Page.handleFileSelect f st) = None).
Proof.
  unfold Page.handleFileSelect.
  split; intros Hext; rewrite Hext; cbn [negb]; repeat split.
Qed.

Lemma handleFileSelect_by_extension_witness :
  Page.status (Page.handleFileSelect {| Page.name := "contracts.csv"; Page.size := 1 |}
                 sample_state) = Page.error /\
  Page.file (Page.handleFileSelect {| Page.name := "other.xlsx"; Page.size := 1 |}
               sample_state) = Some {| Page.name := "other.xlsx"; Page.size := 1 |}.
Proof.
  split.
  - exact (proj1 (proj2 (proj1 (handleFileSelect_by_extension
             {| Page.name := "contracts.csv"; Page.size := 1 |} sample_state) eq_refl))).
  - exact (proj1 (proj2 (handleFileSelect_by_extension
             {| Page.name := "other.xlsx"; Page.size := 1 |} sample_state) eq_refl)).
Defined.

(** C9: with no file selected, or an empty start or end month, [handleSubmit]
    sends nothing (its outcome does not depend on the network) and sets the
    status to error with the message of the guard that fired; a request is
    sent only from a state with a file and both months. *)
Theorem handleSubmit_guards (st : Page.State) :
  (Page.file st = None \/ Page.startMonth st = "" \/ Page.endMonth st = "" ->
     snd (Page.handleSubmit_send st) = None /\
     Page.status (fst (Page.handleSubmit_send st)) = Page.error /\
     Page.errorMsg (fst (Page.handleSubmit_send st)) =
       JS.JString (match Page.file st with
                   | None => "请先选择 Excel 文件"
                   | Some _ => "请填写起始月和结束月"
                   end) /\
     forall rt net, Page.handleSubmit rt net st = fst (Page.handleSubmit_send st)) /\
  (forall req, snd (Page.handleSubmit_send st) = Some req ->
     (exists f, Page.file st = Some f) /\
     Page.startMonth st <> "" /\ Page.endMonth st <> "").
Proof.
  unfold Page.handleSubmit, Page.handleSubmit_send.
  destruct (Page.file st) as [f|] eqn:Hfile.
  - destruct (String.eqb_spec (Page.startMonth st) "") as [Hs|Hs];
      destruct (String.eqb_spec (Page.endMonth st) "") as [He|He]; cbn [orb fst snd];
      split; try (intros _; repeat split; reflexivity);
      try (intros req Hreq; discriminate Hreq).
    + intros [H|[H|H]]; [discriminate H | contradiction | contradiction].
    + intros req _. repeat split; eauto.
  - cbn [fst snd]. split.
    + intros _. repeat split; reflexivity.
    + intros req Hreq. discriminate Hreq.
Qed.

Lemma handleSubmit_guards_witness :
  snd (Page.handleSubmit_send (Page.setFile None sample_state)) = None /\
  Page.startMonth sample_state <> "".
Proof.
  split.
  - exact (proj1 (proj1 (handleSubmit_guards (Page.setFile None sample_state))
                    (or_introl eq_refl))).
  - exact (proj1 (proj2 (proj2 (handleSubmit_guards sample_state) _ eq_refl))).
Defined.


Lemma handleSubmit_catch_state (e : Page.thrown) (st : Page.State) :
  Page.status (Page.handleSubmit_catch e st) = Page.error /\
  Page.result (Page.handleSubmit_catch e st) = Page.result st /\
  JS.truthy (Page.errorMsg (Page.handleSubmit_catch e st)) = true.
Proof. destruct e; repeat split. Qed.









(** A body with status 200 whose [error] member is [null], next to a
    complete result, is taken as a success: [data.error] is tested for
    truthiness, and the results are rendered. *)
Lemma error_field_null_is_rendered :
  carries_error_field body_with_null_error = true /\
  Page.status (Page.handleSubmit sample_runtime (answer_with 200 body_with_null_error)
                 sample_state) = Page.done /\
  Page.result (Page.handleSubmit sample_runtime (answer_with 200 body_with_null_error)
                 sample_state) = Some body_with_null_error /\
  Page.results (Page.Home sample_runtime
                  (Page.handleSubmit sample_runtime (answer_with 200 body_with_null_error)
                     sample_state))
    = Page.Shown
        {| Page.count_card := JS.Num 1;
           Page.receivable_card := "¥24,600.00";
           Page.income_card := "¥24,600.00";
           Page.detail_table :=
             Some (Page.table_header,
                   [["ABC Co"; "B1-01c"; "¥24,600.00"; "¥24,600.00"; "¥0.00"; "¥0.00"; ""]]) |}.
Proof. repeat split; vm_compute; reflexivity. Qed.

(* ===================================================================== *)
(** * The request parameters                                               *)
(* ===================================================================== *)

Lemma days_in_month_bounds (y m : Z) :
  28 <= Engine.days_in_month y m <= 31.
Proof.
  unfold Engine.days_in_month.
  destruct (m =? 2); [destruct (Engine.is_leap y); lia|].
  destruct ((m =? 4) || (m =? 6) || (m =? 9) || (m =? 11)); lia.
Qed.

(** A month value "YYYY-MM" followed by "-01" reads as the first day of that
    month. *)
Lemma first_of_month_date (s : string) (y m : Z) :
  JS.parse_year_month s = Some (y, m) ->
  Engine.parse_iso_date (s ++ "-01") = Some {| Engine.year := y; Engine.month := m; Engine.day := 1 |}.
Proof.
  unfold JS.parse_year_month, Engine.parse_iso_date.
  rewrite list_ascii_app.
  destruct (list_ascii_of_string s) as [|y1 [|y2 [|y3 [|y4 [|dash [|m1 [|m2 [|x l]]]]]]]];
    try discriminate.
  cbn [list_ascii_of_string app].
  destruct (forallb JS.is_digit [y1; y2; y3; y4; m1; m2] && (N_of_ascii dash =? 45)%N)
    eqn:Hshape; [|discriminate].
  destruct ((1 <=? JS.digits_value [m1; m2]) && (JS.digits_value [m1; m2] <=? 12))
    eqn:Hmonth; [|discriminate].
  intros H. injection H as <- <-.
  apply andb_prop in Hshape as [Hdigits Hdash].
  cbn [forallb] in Hdigits |- *.
  repeat (apply andb_prop in Hdigits as [?Hd Hdigits]).
  rewrite Hd, Hd0, Hd1, Hd2, Hd3, Hd4, Hdash.
  cbv zeta.
  replace (JS.digits_value ["0"%char; "1"%char]) with 1 by reflexivity.
  pose proof (days_in_month_bounds (JS.digits_value [y1; y2; y3; y4])
                (JS.digits_value [m1; m2])) as Hb.
  replace (1 <=? Engine.days_in_month (JS.digits_value [y1; y2; y3; y4])
                   (JS.digits_value [m1; m2])) with true by (symmetry; apply Z.leb_le; lia).
  reflexivity.
Qed.

(** The months of a range are those from the start month to the end month,
    both included. *)
Lemma months_in_range_inclusive (r : Engine.MonthRange) (mi : Z) :
  In mi (Engine.months_in_range r) <->
  Engine.month_index (Engine.start_month r) <= mi <= Engine.month_index (Engine.end_month r).
Proof.
  unfold Engine.months_in_range.
  rewrite in_map_iff. split.
  - intros (k & <- & Hk). apply in_seq in Hk. lia.
  - intros H. exists (Z.to_nat (mi - Engine.month_index (Engine.start_month r))).
    split; [lia|]. apply in_seq. lia.
Qed.

(** C5: the request carries the chosen months with "-01" appended, under the
    form fields [start] and [end]; for month values "YYYY-MM" these are the
    ISO dates of the first days of the two months, and the range they
    delimit contains every month from the start month to the end month, the
    two ends included. *)
Theorem submitted_range_is_first_of_month
    (st : Page.State) (f : Page.File) (ys ms ye me : Z) :
  Page.file st = Some f ->
  JS.parse_year_month (Page.startMonth st) = Some (ys, ms) ->
  JS.parse_year_month (Page.endMonth st) = Some (ye, me) ->
  snd (Page.handleSubmit_send st)
    = Some {| Page.url := "/api/calculate"; Page.method := "POST";
              Page.body := [ ("file", Page.FormFile f);
                             ("start", Page.FormText (Page.startMonth st ++ "-01"));
                             ("end", Page.FormText (Page.endMonth st ++ "-01")) ] |} /\
  Engine.parse_iso_date (Page.startMonth st ++ "-01")
    = Some {| Engine.year := ys; Engine.month := ms; Engine.day := 1 |} /\
  Engine.parse_iso_date (Page.endMonth st ++ "-01")
    = Some {| Engine.year := ye; Engine.month := me; Engine.day := 1 |} /\
  forall mi,
    In mi (Engine.months_in_range
             {| Engine.start_month := {| Engine.year := ys; Engine.month := ms; Engine.day := 1 |};
                Engine.end_month := {| Engine.year := ye; Engine.month := me; Engine.day := 1 |} |})
    <-> 12 * ys + (ms - 1) <= mi <= 12 * ye + (me - 1).
Proof.
  intros Hfile Hs He. split; [|split; [|split]].
  - unfold Page.handleSubmit_send. rewrite Hfile.
    destruct (String.eqb_spec (Page.startMonth st) "") as [E|_];
      [rewrite E in Hs; discriminate Hs|].
    destruct (String.eqb_spec (Page.endMonth st) "") as [E|_];
      [rewrite E in He; discriminate He|].
    reflexivity.
  - now apply first_of_month_date.
  - now apply first_of_month_date.
  - intros mi. apply months_in_range_inclusive.
Qed.

Lemma submitted_range_is_first_of_month_witness :
  Engine.parse_iso_date (Page.startMonth sample_state ++ "-01")
    = Some {| Engine.year := 2026; Engine.month := 11; Engine.day := 1 |} /\
  Engine.parse_iso_date (Page.endMonth sample_state ++ "-01")
    = Some {| Engine.year := 2026; Engine.month := 12; Engine.day := 1 |}.
Proof.
  pose proof (submitted_range_is_first_of_month sample_state sample_file 2026 11 2026 12
                eq_refl eq_refl eq_refl) as H.
  exact (conj (proj1 (proj2 H)) (proj1 (proj2 (proj2 H)))).
Defined.

(* ===================================================================== *)
(** * The results panel                                                    *)
(* ===================================================================== *)

Lemma as_CalcResult_truthy (data : JS.json) (r : Page.CalcResult) :
  Page.as_CalcResult data = Some r -> JS.truthy data = true.
Proof.
  unfold Page.as_CalcResult. destruct data; cbn [JS.member]; try discriminate. reflexivity.
Qed.

Lemma Home_shows_result (rt : JS.runtime) (st : Page.State) (data : JS.json)
    (r : Page.CalcResult) :
  Page.status st = Page.done -> Page.result st = Some data ->
  Page.as_CalcResult data = Some r ->
  Page.results (Page.Home rt st) = Page.Shown (Page.render_results rt r) /\
  Page.error_box (Page.Home rt st) = None.
Proof.
  intros Hst Hres Hshape. unfold Page.Home.
  rewrite Hst, Hres, (as_CalcResult_truthy _ _ Hshape), Hshape. split; reflexivity.
Qed.

Lemma notes_or_empty (s : string) : (if String.eqb s "" then "" else s) = s.
Proof. destruct (String.eqb_spec s ""); congruence. Qed.

(** C6: a summary row is made of exactly its seven fields; for a non-empty
    summary the page shows a table of seven columns whose i-th row holds the
    seven cells of the i-th row of the summary array: customer, merchant id,
    the four amounts through [formatMoney], and the notes. *)
Theorem summary_table_has_a_row_per_contract
    (rt : JS.runtime) (st : Page.State) (data : JS.json) (r : Page.CalcResult) :
  Page.status st = Page.done -> Page.result st = Some data ->
  Page.as_CalcResult data = Some r ->
  Page.summary r <> [] ->
  (forall a b : Page.ContractSummary,
      Page.customer a = Page.customer b -> Page.merchant_id a = Page.merchant_id b ->
      Page.receivable a = Page.receivable b -> Page.income a = Page.income b ->
      Page.bank_matched a = Page.bank_matched b ->
      Page.invoice_matched a = Page.invoice_matched b ->
      Page.notes a = Page.notes b -> a = b) /\
  exists panel header rows,
    Page.results (Page.Home rt st) = Page.Shown panel /\
    Page.detail_table panel = Some (header, rows) /\
    length header = 7%nat /\
    length rows = length (Page.summary r) /\
    forall (i : nat) (row : Page.ContractSummary),
      Page.summary r !! i = Some row ->
      rows !! i = Some [ Page.customer row;
                         Page.merchant_id row;
                         Page.formatMoney rt (Some (Page.receivable row));
                         Page.formatMoney rt (Some (Page.income row));
                         Page.formatMoney rt (Some (Page.bank_matched row));
                         Page.formatMoney rt (Some (Page.invoice_matched row));
                         Page.notes row ].
Proof.
  intros Hst Hres Hshape Hne. split.
  - intros [] []; cbn; intros; subst; reflexivity.
  - destruct (Home_shows_result rt st data r Hst Hres Hshape) as [Hshown _].
    exists (Page.render_results rt r), Page.table_header,
      (map (Page.render_row rt) (Page.summary r)).
    split; [exact Hshown|]. split; [|split; [reflexivity|split]].
    + unfold Page.render_results; cbn [Page.detail_table].
      destruct (Page.summary r); [contradiction | reflexivity].
    + apply length_map.
    + intros i row Hi. rewrite list_lookup_fmap, Hi. cbn [fmap option_fmap option_map].
      unfold Page.render_row. now rewrite notes_or_empty.
Qed.

Lemma summary_table_has_a_row_per_contract_witness :
  exists panel header rows,
    Page.results (Page.Home sample_runtime
                    (Page.setStatus Page.done
                       (Page.setResult (Some sample_body) sample_state)))
      = Page.Shown panel /\
    Page.detail_table panel = Some (header, rows) /\
    length header = 7%nat /\
    length rows = 1%nat /\
    forall (i : nat) (row : Page.ContractSummary),
      [sample_row] !! i = Some row ->
      rows !! i = Some [ Page.customer row;
                         Page.merchant_id row;
                         Page.formatMoney sample_runtime (Some (Page.receivable row));
                         Page.formatMoney sample_runtime (Some (Page.income row));
                         Page.formatMoney sample_runtime (Some (Page.bank_matched row));
                         Page.formatMoney sample_runtime (Some (Page.invoice_matched row));
                         Page.notes row ].
Proof.
  refine (proj2 (summary_table_has_a_row_per_contract sample_runtime
                   (Page.setStatus Page.done
                      (Page.setResult (Some sample_body) sample_state))
                   sample_body sample_result eq_refl eq_refl eq_refl _)).
  discriminate.
Defined.

(* ===================================================================== *)
(** * Downloads                                                            *)
(* ===================================================================== *)

Lemma decode_buffer_bytes (values : list Z) (buffer bits : Z) :
  Forall is_byte (JS.decode_buffer values buffer bits).
Proof.
  revert buffer bits.
  induction values as [|v values IH]; intros buffer bits; cbn [JS.decode_buffer].
  - destruct (bits =? 12); [|destruct (bits =? 18)];
      repeat constructor; apply Z.mod_pos_bound; lia.
  - destruct (bits + 6 =? 24); [|apply IH].
    repeat (constructor; [apply Z.mod_pos_bound; lia|]). apply IH.
Qed.

(** Every code unit of the string [atob] returns is below 256. *)
Lemma atob_bytes (data : string) (binary : JS.binary_string) :
  JS.atob data = Some binary -> Forall is_byte binary.
Proof.
  unfold JS.atob.
  destruct (length _ mod 4 =? 1)%nat; [discriminate|].
  destruct (JS.base64_values _); [|discriminate].
  intros H. injection H as <-. apply decode_buffer_bytes.
Qed.

(** The loop invariant of [fill_bytes]: after [n] rounds the first [n] bytes
    are written and the others are still zero. *)
Lemma fill_bytes_prefix (binary : JS.binary_string) (n : nat) :
  (n <= length binary)%nat ->
  foldl (fun (bytes : list Z) (i : nat) =>
           <[ i := JS.ToUint8 (JS.charCodeAt binary i) ]> bytes)
        (replicate (length binary) 0) (seq 0 n)
  = (((fun z => z mod 256) <$> take n binary) ++ replicate (length binary - n) 0)%list.
Proof.
  induction n as [|n IH]; intros Hn.
  - cbn [seq foldl take fmap list_fmap app]. now rewrite Nat.sub_0_r.
  - rewrite seq_S, foldl_app, IH by lia. cbn [foldl Nat.add].
    destruct (lookup_lt_is_Some_2 binary n ltac:(lia)) as [c Hc].
    unfold JS.charCodeAt. rewrite Hc. cbn [JS.ToUint8].
    rewrite (take_S_r _ _ _ Hc), fmap_app, <- app_assoc.
    rewrite insert_app_r_alt by (rewrite length_fmap, length_take; lia).
    rewrite length_fmap, length_take.
    replace (n - n `min` length binary)%nat with 0%nat by lia.
    replace (length binary - n)%nat with (S (length binary - S n)) by lia.
    reflexivity.
Qed.

Lemma fill_bytes_wraps (binary : JS.binary_string) :
  Page.fill_bytes binary = (fun z => z mod 256) <$> binary.
Proof.
  unfold Page.fill_bytes. rewrite fill_bytes_prefix by lia.
  rewrite firstn_all, Nat.sub_diag. apply app_nil_r.
Qed.

(** On the output of [atob] the conversion to bytes loses nothing. *)
Lemma fill_bytes_exact (binary : JS.binary_string) :
  Forall is_byte binary -> Page.fill_bytes binary = binary.
Proof.
  intros Hb. rewrite fill_bytes_wraps.
  induction Hb as [|z l Hz _ IH]; [reflexivity|].
  cbn [fmap list_fmap]. f_equal; [apply Z.mod_small; exact Hz | exact IH].
Qed.

(** C7: the three download buttons hand the three members of [files], each
    on its own, to [downloadBase64]; for a string that [atob] decodes,
    [downloadBase64] saves under the given name one blob of the xlsx type
    whose bytes are, position by position, the character codes of the decoded
    string. *)
Theorem downloadBase64_saves_decoded_bytes
    (b64 filename : string) (binary : JS.binary_string) :
  JS.atob b64 = Some binary ->
  (forall r : Page.CalcResult,
      Page.onClick_download Page.lease_button r
        = Page.downloadBase64 (Page.lease (Page.files r)) "lease.xlsx" /\
      Page.onClick_download Page.single_button r
        = Page.downloadBase64 (Page.single (Page.files r)) "single.xlsx" /\
      Page.onClick_download Page.income_button r
        = Page.downloadBase64 (Page.income_file (Page.files r)) "income.xlsx") /\
  exists d,
    Page.downloadBase64 b64 filename = Some d /\
    Page.saved_as d = filename /\
    Page.blob_type (Page.saved_blob d)
      = "application/vnd.openxmlformats-officedocument.spreadsheetml.sheet" /\
    length (Page.blob_bytes (Page.saved_blob d)) = length binary /\
    forall (i : nat) (code : Z),
      JS.charCodeAt binary i = Some code ->
      Page.blob_bytes (Page.saved_blob d) !! i = Some code /\ 0 <= code < 256.
Proof.
  intros Hatob. split; [intros r; repeat split|].
  pose proof (atob_bytes _ _ Hatob) as Hbytes.
  unfold Page.downloadBase64. rewrite Hatob.
  eexists. split; [reflexivity|].
  cbn [Page.saved_as Page.saved_blob Page.blob_type Page.blob_bytes].
  rewrite (fill_bytes_exact _ Hbytes).
  repeat split; try assumption.
  - unfold JS.charCodeAt in *.
    rewrite Forall_lookup in Hbytes. apply (Hbytes i code). assumption.
  - unfold JS.charCodeAt in *.
    rewrite Forall_lookup in Hbytes. apply (Hbytes i code). assumption.
Qed.

Lemma downloadBase64_saves_decoded_bytes_witness :
  exists d,
    Page.downloadBase64 "TWFu" "lease.xlsx" = Some d /\
    Page.saved_as d = "lease.xlsx" /\
    Page.blob_type (Page.saved_blob d)
      = "application/vnd.openxmlformats-officedocument.spreadsheetml.sheet" /\
    length (Page.blob_bytes (Page.saved_blob d)) = 3%nat /\
    forall (i : nat) (code : Z),
      JS.charCodeAt [77; 97; 110] i = Some code ->
      Page.blob_bytes (Page.saved_blob d) !! i = Some code /\ 0 <= code < 256.
Proof.
  exact (proj2 (downloadBase64_saves_decoded_bytes "TWFu" "lease.xlsx" [77; 97; 110] eq_refl)).
Defined.

(* ===================================================================== *)
(** * The default range                                                    *)
(* ===================================================================== *)

Lemma decimal_four_digits (n : N) :
  (1000 <= n <= 9999)%N ->
  JS.decimal n
  = String (JS.digit_char (n / 10 / 10 / 10))
      (String (JS.digit_char ((n / 10 / 10) mod 10))
         (String (JS.digit_char ((n / 10) mod 10))
            (String (JS.digit_char (n mod 10)) ""))).
Proof.
  intros Hn.
  rewrite (decimal_step n) by lia.
  rewrite (decimal_step (n / 10)) by lia_div.
  rewrite (decimal_step (n / 10 / 10)) by lia_div.
  rewrite decimal_small by lia_div.
  reflexivity.
Qed.

Ltac evaluate_padStart :=
  match goal with
  | |- context [JS.padStart ?s ?n ?f] =>
      let v := eval vm_compute in (JS.padStart s n f) in
      change (JS.padStart s n f) with v
  end.

(** A four-digit year and a month printed the way [getDefaultDates] prints
    them read back as that year and month. *)
Lemma printed_month_reads_back (y m : Z) :
  1000 <= y <= 9999 -> 1 <= m <= 12 ->
  JS.parse_year_month (JS.String_of_int y ++ "-" ++ JS.padStart (JS.String_of_int m) 2 "0")
  = Some (y, m).
Proof.
  intros Hy Hm.
  unfold JS.String_of_int at 1. destruct (Z.ltb_spec y 0) as [Hneg|_]; [lia|].
  rewrite decimal_four_digits by lia.
  set (n := Z.to_N y).
  set (d3 := (n / 10 / 10 / 10)%N). set (d2 := ((n / 10 / 10) mod 10)%N).
  set (d1 := ((n / 10) mod 10)%N). set (d0 := (n mod 10)%N).
  assert (H3 : (d3 < 10)%N) by (subst d3 n; lia_div).
  assert (H2 : (d2 < 10)%N) by (subst d2; apply N.mod_lt; lia).
  assert (H1 : (d1 < 10)%N) by (subst d1; apply N.mod_lt; lia).
  assert (H0 : (d0 < 10)%N) by (subst d0; apply N.mod_lt; lia).
  assert (Hdigits :
    10 * (10 * (10 * (10 * 0 + Z.of_N d3) + Z.of_N d2) + Z.of_N d1) + Z.of_N d0 = y)
    by (subst d3 d2 d1 d0 n; lia_div).
  clearbody d3 d2 d1 d0.
  assert (Hcases : m = 1 \/ m = 2 \/ m = 3 \/ m = 4 \/ m = 5 \/ m = 6 \/ m = 7 \/ m = 8
                   \/ m = 9 \/ m = 10 \/ m = 11 \/ m = 12) by lia.
  unfold JS.parse_year_month.
  repeat destruct Hcases as [-> | Hcases]; try subst m;
    evaluate_padStart;
    cbn [String.append list_ascii_of_string forallb];
    rewrite !digit_char_is_digit by assumption;
    unfold JS.digits_value; cbn [fold_left];
    rewrite !digit_char_value by assumption;
    rewrite Hdigits; reflexivity.
Qed.

Lemma padded_month_reads_back (m : Z) :
  1 <= m <= 12 -> read_month (JS.padStart (JS.String_of_int m) 2 "0") = Some m.
Proof.
  intros Hm.
  assert (Hcases : m = 1 \/ m = 2 \/ m = 3 \/ m = 4 \/ m = 5 \/ m = 6 \/ m = 7 \/ m = 8
                   \/ m = 9 \/ m = 10 \/ m = 11 \/ m = 12) by lia.
  repeat destruct Hcases as [-> | Hcases]; try subst m; reflexivity.
Qed.

Lemma end_of_default_range (now : Page.Date) :
  0 <= Page.getMonth now <= 11 ->
  ((if 11 <=? Page.getMonth now then Page.getFullYear now + 1 else Page.getFullYear now),
   (if 12 <? Page.getMonth now + 2 then 1 else Page.getMonth now + 2))
  = next_month (Page.getFullYear now, Page.getMonth now + 1).
Proof.
  intros Hmonth. unfold next_month.
  destruct (Z.eqb_spec (Page.getMonth now + 1) 12);
    destruct (Z.leb_spec 11 (Page.getMonth now));
    destruct (Z.ltb_spec 12 (Page.getMonth now + 2)); try lia; f_equal; lia.
Qed.

(** C10: [getDefaultDates] returns the current year and month as start and
    the year and month of the following calendar month as end, each as the
    year, a hyphen and a two-digit month from 01 to 12; for December the end
    is month 01 of the next year.  When the years have four digits both are
    well-formed "YYYY-MM" strings. *)
Theorem getDefaultDates_consecutive_months (now : Page.Date) :
  0 <= Page.getMonth now <= 11 ->
  (exists mm1 mm2 : string,
      Page.start (Page.getDefaultDates now)
        = JS.String_of_int (Page.getFullYear now) ++ "-" ++ mm1 /\
      read_month mm1 = Some (Page.getMonth now + 1) /\
      Page.end_ (Page.getDefaultDates now)
        = JS.String_of_int (fst (next_month (Page.getFullYear now, Page.getMonth now + 1)))
          ++ "-" ++ mm2 /\
      read_month mm2 = Some (snd (next_month (Page.getFullYear now, Page.getMonth now + 1)))) /\
  (Page.getMonth now = 11 ->
     next_month (Page.getFullYear now, Page.getMonth now + 1)
       = (Page.getFullYear now + 1, 1)) /\
  (1000 <= Page.getFullYear now ->
   fst (next_month (Page.getFullYear now, Page.getMonth now + 1)) <= 9999 ->
   JS.parse_year_month (Page.start (Page.getDefaultDates now))
     = Some (Page.getFullYear now, Page.getMonth now + 1) /\
   JS.parse_year_month (Page.end_ (Page.getDefaultDates now))
     = Some (next_month (Page.getFullYear now, Page.getMonth now + 1))).
Proof.
  intros Hmonth.
  pose proof (end_of_default_range now Hmonth) as Hend.
  assert (Hnext : 1 <= snd (next_month (Page.getFullYear now, Page.getMonth now + 1)) <= 12
                  /\ Page.getFullYear now
                     <= fst (next_month (Page.getFullYear now, Page.getMonth now + 1))).
  { unfold next_month. destruct (Page.getMonth now + 1 =? 12) eqn:E; cbn [fst snd]; lia. }
  destruct (next_month (Page.getFullYear now, Page.getMonth now + 1)) as [y' m'] eqn:Hnm.
  cbn [fst snd] in *. injection Hend as Hy' Hm'.
  unfold Page.getDefaultDates; cbn [Page.start Page.end_]. rewrite Hy', Hm'.
  split; [|split].
  - eexists _, _. split; [reflexivity|]. split; [apply padded_month_reads_back; lia|].
    split; [reflexivity | apply padded_month_reads_back; lia].
  - intros Hdec. rewrite <- Hnm. unfold next_month. now rewrite Hdec.
  - intros Hlo Hhi. split; apply printed_month_reads_back; lia.
Qed.

Lemma getDefaultDates_consecutive_months_witness :
  JS.parse_year_month
    (Page.start (Page.getDefaultDates {| Page.getFullYear := 2026; Page.getMonth := 11 |}))
    = Some (2026, 12) /\
  JS.parse_year_month
    (Page.end_ (Page.getDefaultDates {| Page.getFullYear := 2026; Page.getMonth := 11 |}))
    = Some (2027, 1).
Proof.
  assert (H1 : 0 <= 11 <= 11) by lia.
  assert (H2 : 1000 <= 2026) by lia.
  assert (H3 : 2027 <= 9999) by lia.
  exact (proj2 (proj2 (getDefaultDates_consecutive_months
                         {| Page.getFullYear := 2026; Page.getMonth := 11 |} H1)) H2 H3).
Defined.

(* ===================================================================== *)
(** * Money display                                                        *)
(* ===================================================================== *)

Lemma decimal_length_pos (n : N) : (1 <= String.length (JS.decimal n))%nat.
Proof.
  destruct (N.lt_ge_cases n 10) as [Hsmall|Hbig].
  - rewrite decimal_small by exact Hsmall. cbn. lia.
  - rewrite decimal_step, string_length_app by exact Hbig. cbn. lia.
Qed.

(** The two substrings [a] and [b] that [toFixed] puts around the point. *)
Lemma toFixed_split (n : N) (m : string) (k : nat) :
  m = (if (String.length (JS.decimal n) <=? 2)%nat
       then JS.zeros (2 + 1 - String.length (JS.decimal n)) ++ JS.decimal n
       else JS.decimal n) ->
  k = (if (String.length (JS.decimal n) <=? 2)%nat then (2 + 1)%nat
       else String.length (JS.decimal n)) ->
  String.substring 0 (k - 2) m = JS.decimal (n / 100) /\
  String.substring (k - 2) 2 m
    = String (JS.digit_char ((n / 10) mod 10)) (String (JS.digit_char (n mod 10)) "").
Proof.
  intros -> ->.
  destruct (N.lt_ge_cases n 10) as [H10|H10].
  - rewrite decimal_small by exact H10.
    rewrite (N.div_small n 100), (N.div_small n 10), (N.mod_small n 10) by lia.
    split; reflexivity.
  - destruct (N.lt_ge_cases n 100) as [H100|H100].
    + rewrite (decimal_step n) by exact H10.
      rewrite (decimal_small (n / 10)) by lia_div.
      rewrite (N.div_small n 100), (N.mod_small (n / 10) 10) by lia_div.
      split; reflexivity.
    + rewrite (decimal_step n) by exact H10.
      rewrite (decimal_step (n / 10)) by lia_div.
      rewrite N.Div0.div_div. change (10 * 10)%N with 100%N.
      rewrite string_app_assoc. cbn [String.append].
      set (a := JS.decimal (n / 100)).
      set (b := String (JS.digit_char ((n / 10) mod 10))
                  (String (JS.digit_char (n mod 10)) "")).
      pose proof (decimal_length_pos (n / 100)) as Ha. fold a in Ha.
      assert (Hlen : String.length (a ++ b) = (String.length a + 2)%nat)
        by (rewrite string_length_app; reflexivity).
      rewrite Hlen.
      destruct (Nat.leb_spec (String.length a + 2) 2) as [Hle|_]; [lia|].
      replace (String.length a + 2 - 2)%nat with (String.length a) by lia.
      split; [apply substring_prefix | apply (substring_suffix a b)].
Qed.

(** The digits [toFixed(2)] prints for a number below 10^21 in magnitude. *)
Lemma toFixed2_digits (rt : JS.runtime) (q : Q) :
  Qle_bool (inject_Z (10 ^ 21)) (Qabs q) = false ->
  JS.toFixed2 rt (JS.Num q)
  = (if Qnum q <? 0 then "-" else "")
    ++ JS.decimal (Z.to_N (JS.toFixed_n (Qabs q)) / 100)
    ++ "."
    ++ String (JS.digit_char ((Z.to_N (JS.toFixed_n (Qabs q)) / 10) mod 10))
         (String (JS.digit_char (Z.to_N (JS.toFixed_n (Qabs q)) mod 10)) "").
Proof.
  intros Hsmall. unfold JS.toFixed2. rewrite Hsmall.
  set (n := JS.toFixed_n (Qabs q)).
  assert (Hm : (if n =? 0 then "0" else JS.decimal (Z.to_N n)) = JS.decimal (Z.to_N n)).
  { destruct (Z.eqb_spec n 0) as [->|_]; reflexivity. }
  rewrite Hm. cbv zeta.
  destruct (toFixed_split (Z.to_N n) _ _ eq_refl eq_refl) as [Ha Hb].
  rewrite Ha, Hb. reflexivity.
Qed.

(** The replacement only inserts commas. *)
Lemma group_from_plain (prev : option ascii) (s : string) :
  List.filter (fun c => negb (is_comma c)) (list_ascii_of_string (JS.group_from prev s))
  = List.filter (fun c => negb (is_comma c)) (list_ascii_of_string s).
Proof.
  revert prev. induction s as [|c s IH]; intros prev; [reflexivity|].
  cbn [JS.group_from].
  destruct (Bool.eqb (JS.is_word prev) (JS.is_word (Some c)) && JS.lookahead_thousands (String c s));
    cbn [String.append list_ascii_of_string List.filter];
    rewrite IH; reflexivity.
Qed.

Lemma digit_is_not_comma (c : ascii) : JS.is_digit c = true -> is_comma c = false.
Proof.
  unfold JS.is_digit, is_comma. intros H. apply andb_prop in H as [H _].
  apply N.leb_le in H. apply N.eqb_neq. lia.
Qed.

Lemma digit_is_not_minus (c : ascii) : JS.is_digit c = true -> is_minus c = false.
Proof.
  unfold JS.is_digit, is_minus. intros H. apply andb_prop in H as [H _].
  apply N.leb_le in H. apply N.eqb_neq. lia.
Qed.

Lemma digits_have_no_comma (cs : list ascii) :
  forallb JS.is_digit cs = true ->
  List.filter (fun c => negb (is_comma c)) cs = cs.
Proof.
  induction cs as [|c cs IH]; [reflexivity|].
  cbn [forallb List.filter]. intros H. apply andb_prop in H as [Hc Hcs].
  rewrite (digit_is_not_comma _ Hc), IH by exact Hcs. reflexivity.
Qed.

Lemma strip_prefix_app (p cs : list ascii) : strip_prefix p (p ++ cs) = Some cs.
Proof.
  induction p as [|a p IH]; cbn; [destruct cs; reflexivity|].
  now rewrite Ascii.eqb_refl.
Qed.

(** A sign, the digits of [n / 100], a point and the two last digits of [n],
    grouped by the replacement and put behind the yen sign, read as [n]
    cents with that sign. *)
Lemma displayed_cents_of_digits (negative : bool) (n : N) :
  displayed_cents
    ("¥" ++ JS.replace_thousands
              ((if negative then "-" else "")
               ++ JS.decimal (n / 100) ++ "."
               ++ String (JS.digit_char ((n / 10) mod 10))
                    (String (JS.digit_char (n mod 10)) "")))
  = Some (if negative then - Z.of_N n else Z.of_N n).
Proof.
  unfold displayed_cents, JS.replace_thousands.
  rewrite list_ascii_app, strip_prefix_app, group_from_plain.
  set (d1 := JS.digit_char ((n / 10) mod 10)).
  set (d0 := JS.digit_char (n mod 10)).
  assert (Hd1 : JS.is_digit d1 = true) by (apply digit_char_is_digit; lia_div).
  assert (Hd0 : JS.is_digit d0 = true) by (apply digit_char_is_digit; lia_div).
  pose proof (decimal_all_digits (n / 100)) as Hwhole.
  pose proof (decimal_length_pos (n / 100)) as Hlen.
  pose proof (decimal_value (n / 100)) as Hvalue.
  set (whole := list_ascii_of_string (JS.decimal (n / 100))) in *.
  assert (Hlen' : (1 <= length whole)%nat).
  { subst whole. clear -Hlen. revert Hlen.
    generalize (JS.decimal (n / 100)) as a. intros a. destruct a; cbn; lia. }
  assert (Hplain :
    List.filter (fun c => negb (is_comma c))
      (list_ascii_of_string
         ((if negative then "-" else "") ++ JS.decimal (n / 100) ++ "."
          ++ String d1 (String d0 "")))
    = ((if negative then ["-"%char] else []) ++ whole ++ ["."%char; d1; d0])%list).
  { rewrite !list_ascii_app. fold whole.
    rewrite !List.filter_app, (digits_have_no_comma whole Hwhole).
    cbn [list_ascii_of_string List.filter].
    rewrite (digit_is_not_comma _ Hd1), (digit_is_not_comma _ Hd0).
    destruct negative; reflexivity. }
  rewrite Hplain. clear Hplain Hlen. clearbody whole.
  assert (Hmag :
    (let plain := ((if negative then ["-"%char] else []) ++ whole ++ ["."%char; d1; d0])%list in
     (match plain with c :: _ => is_minus c | [] => false end) = negative /\
     (if negative then List.tl plain else plain) = (whole ++ ["."%char; d1; d0])%list)).
  { destruct negative; cbn; [split; reflexivity|].
    destruct whole as [|c whole']; [cbn in Hlen'; lia|].
    cbn [forallb] in Hwhole. apply andb_prop in Hwhole as [Hc _].
    cbn. split; [exact (digit_is_not_minus _ Hc) | reflexivity]. }
  cbv zeta in Hmag. destruct Hmag as [Hneg Hmag].
  cbv zeta. rewrite Hneg, Hmag.
  rewrite length_app. cbn [length].
  replace (length whole + 3 - 3)%nat with (length whole) by lia.
  rewrite take_app_length, drop_app_length.
  rewrite Hd1, Hd0, Hwhole.
  destruct (Nat.ltb_spec 0 (length whole)) as [_|Hbad]; [|lia].
  cbn [is_point andb N_of_ascii N.eqb].
  replace (is_point ".") with true by reflexivity.
  cbn [andb]. rewrite Hvalue.
  unfold JS.digits_value. cbn [fold_left].
  subst d1 d0. rewrite !digit_char_value by lia_div.
  f_equal. destruct negative; lia_div.
Qed.

(** The integer [toFixed] picks is the nearest to [100 x], and the larger
    one of two equally near. *)
Lemma toFixed_n_nearest (x : Q) :
  (0 <= x)%Q ->
  0 <= JS.toFixed_n x /\
  (inject_Z (JS.toFixed_n x) - (1 # 2) <= x * 100)%Q /\
  (x * 100 < inject_Z (JS.toFixed_n x) + (1 # 2))%Q.
Proof.
  intros Hx. unfold JS.toFixed_n.
  pose proof (Qfloor_le (x * 100 + (1 # 2))) as Hlo.
  pose proof (Qlt_floor (x * 100 + (1 # 2))) as Hhi.
  rewrite inject_Z_plus in Hhi.
  change (inject_Z 1) with 1%Q in Hhi.
  split; [|split; lra].
  change 0 with (Qfloor 0). apply Qfloor_resp_le. lra.
Qed.

Lemma Qnum_negative (q : Q) : (Qnum q <? 0) = true <-> (q < 0)%Q.
Proof.
  unfold Qlt. cbn. rewrite Z.mul_1_r. apply Z.ltb_lt.
Qed.

(** C2: for a number below 10^21 in magnitude, [formatMoney] is the yen sign
    and the grouped output of [toFixed(2)], and the amount it displays is the
    number rounded half up to two decimals.  In particular the double that
    the numeral 1234.565 denotes is displayed as 1,234.57. *)
Theorem formatMoney_rounds_half_up (rt : JS.runtime) (q : Q) :
  (Qabs q < inject_Z (10 ^ 21))%Q ->
  Page.formatMoney rt (Some (JS.Num q))
    = "¥" ++ JS.replace_thousands (JS.toFixed2 rt (JS.Num q)) /\
  (exists c : Z,
      displayed_cents (Page.formatMoney rt (Some (JS.Num q))) = Some c /\
      is_half_up_cents q c) /\
  Page.formatMoney rt (Some (JS.binary64 (1234565 # 1000))) = "¥1,234.57" /\
  displayed_cents (Page.formatMoney rt (Some (JS.binary64 (1234565 # 1000)))) = Some 123457.
Proof.
  intros Hsmall. split; [reflexivity|].
  split; [|split; vm_compute; reflexivity].
  assert (Hbranch : Qle_bool (inject_Z (10 ^ 21)) (Qabs q) = false).
  { destruct (Qle_bool (inject_Z (10 ^ 21)) (Qabs q)) eqn:E; [|reflexivity].
    apply Qle_bool_iff in E. apply Qlt_not_le in Hsmall. contradiction. }
  destruct (toFixed_n_nearest (Qabs q) (Qabs_nonneg q)) as (Hn & Hlo & Hhi).
  exists (if Qnum q <? 0 then - JS.toFixed_n (Qabs q) else JS.toFixed_n (Qabs q)).
  split.
  - unfold Page.formatMoney. rewrite (toFixed2_digits rt q Hbranch).
    rewrite displayed_cents_of_digits, Z2N.id by exact Hn. reflexivity.
  - assert (Habs : Z.abs (if Qnum q <? 0 then - JS.toFixed_n (Qabs q)
                          else JS.toFixed_n (Qabs q)) = JS.toFixed_n (Qabs q))
      by (destruct (Qnum q <? 0); lia).
    unfold is_half_up_cents. rewrite Habs.
    split; [exact Hlo|]. split; [exact Hhi|].
    destruct (Qnum q <? 0) eqn:Hsign.
    + apply Qnum_negative in Hsign. split; [intros H; lra | intros _; lia].
    + split; [intros _; exact Hn|].
      intros Hle.
      assert (Hzero : (q == 0)%Q).
      { apply Qle_antisym; [exact Hle|].
        apply Qnot_lt_le. intros Hlt. apply Qnum_negative in Hlt. congruence. }
      assert (Hfloor : JS.toFixed_n (Qabs q) = 0).
      { unfold JS.toFixed_n.
        assert (E : (Qabs q * 100 + (1 # 2) == (1 # 2))%Q).
        { rewrite Hzero. reflexivity. }
        rewrite E. reflexivity. }
      lia.
Qed.

(** The numeral 1234.565 denotes the double 0x1.34a428f5c28f6p+10, just above
    it; the numeral 1.005 denotes a double just below it, and it is that
    double which is rounded. *)
Example doubles_of_numerals (rt : JS.runtime) :
  JS.binary64 (1234565 # 1000) = JS.Num (5429674290981110 # 4398046511104) /\
  JS.binary64 (1005 # 1000) = JS.Num (4526117625507348 # 4503599627370496) /\
  Page.formatMoney rt (Some (JS.binary64 (1005 # 1000))) = "¥1.00" /\
  Page.formatMoney rt (Some (JS.Num (125 # 1000))) = "¥0.13".
Proof. repeat split; vm_compute; reflexivity. Qed.

Lemma formatMoney_rounds_half_up_witness :
  exists c : Z,
    displayed_cents (Page.formatMoney sample_runtime (Some (JS.Num (1234565 # 1000))))
      = Some c /\
    is_half_up_cents (1234565 # 1000) c.
Proof.
  assert (H : (Qabs (1234565 # 1000) < inject_Z (10 ^ 21))%Q) by (vm_compute; reflexivity).
  exact (proj1 (proj2 (formatMoney_rounds_half_up sample_runtime (1234565 # 1000) H))).
Defined.

(* ===================================================================== *)
(** * Income over the lease term                                           *)
(* ===================================================================== *)

Lemma days_before_month_succ (y m : Z) :
  1 <= m ->
  Engine.days_before_month y (m + 1)
  = Engine.days_before_month y m + Engine.days_in_month y m.
Proof.
  intros Hm. unfold Engine.days_before_month.
  replace (Z.to_nat (m + 1 - 1)) with (S (Z.to_nat (m - 1))) by lia.
  rewrite seq_S, map_app, fold_right_app. cbn [map fold_right].
  replace (Z.of_nat (1 + Z.to_nat (m - 1))) with m by lia.
  generalize (seq 1 (Z.to_nat (m - 1))) as ks.
  induction ks as [|k ks IH]; cbn [map fold_right]; lia.
Qed.

Lemma days_before_year_succ (y : Z) :
  Engine.days_before_year (y + 1)
  = Engine.days_before_year y + 365 + (if Engine.is_leap y then 1 else 0).
Proof.
  unfold Engine.days_before_year, Engine.is_leap.
  replace (y + 1 - 1) with y by lia.
  destruct (Z.eqb_spec (y mod 4) 0), (Z.eqb_spec (y mod 100) 0), (Z.eqb_spec (y mod 400) 0);
    cbn [andb orb negb]; lia_div.
Qed.

Lemma days_before_december (y : Z) :
  Engine.days_before_month y 12 = 334 + (if Engine.is_leap y then 1 else 0).
Proof.
  unfold Engine.days_before_month. cbn. unfold Engine.days_in_month. cbn.
  destruct (Engine.is_leap y); reflexivity.
Qed.

(** A month starts where the month before it ends. *)
Lemma month_start_succ (mi : Z) :
  Engine.month_start (mi + 1)
  = Engine.month_start mi + Engine.days_in_month (mi / 12) (mi mod 12 + 1).
Proof.
  unfold Engine.month_start, Engine.ordinal, Engine.first_of_month.
  cbn [Engine.year Engine.month Engine.day].
  destruct (Z.eq_dec (mi mod 12) 11) as [Hdec|Hnot].
  - replace ((mi + 1) / 12) with (mi / 12 + 1) by lia_div.
    replace ((mi + 1) mod 12) with 0 by lia_div.
    rewrite Hdec.
    replace (0 + 1) with 1 by reflexivity. replace (11 + 1) with 12 by reflexivity.
    rewrite days_before_year_succ, days_before_december.
    change (Engine.days_before_month (mi / 12 + 1) 1) with 0.
    change (Engine.days_in_month (mi / 12) 12) with 31. lia.
  - replace ((mi + 1) / 12) with (mi / 12) by lia_div.
    replace ((mi + 1) mod 12 + 1) with (mi mod 12 + 1 + 1) by lia_div.
    rewrite days_before_month_succ by lia_div. lia.
Qed.

Lemma month_start_le (a : Z) (n : nat) :
  Engine.month_start a <= Engine.month_start (a + Z.of_nat n).
Proof.
  induction n as [|n IH]; [now rewrite Z.add_0_r|].
  replace (a + Z.of_nat (S n)) with (a + Z.of_nat n + 1) by lia.
  rewrite month_start_succ.
  pose proof (days_in_month_bounds ((a + Z.of_nat n) / 12) ((a + Z.of_nat n) mod 12 + 1)).
  lia.
Qed.

Lemma month_income_cell (c : Engine.Contract) (mi : Z) :
  Engine.month_income c mi
  = (Engine.daily_income_rate c
     * inject_Z (overlap (Engine.ordinal (Engine.delivery_date c))
                   (Engine.ordinal (Engine.expiry_date c))
                   (Engine.month_start mi) (Engine.month_start (mi + 1))))%Q.
Proof. unfold Engine.month_income, Engine.term_days_in_month, overlap. reflexivity. Qed.

(** The days of consecutive months add up to the days of the whole span. *)
Lemma overlap_of_months (lo hi a : Z) (n : nat) :
  fold_right Z.add 0
    (map (fun k => overlap lo hi (Engine.month_start (a + Z.of_nat k))
                     (Engine.month_start (a + Z.of_nat k + 1)))
         (seq 0 n))
  = overlap lo hi (Engine.month_start a) (Engine.month_start (a + Z.of_nat n)).
Proof.
  induction n as [|n IH].
  - cbn [seq map fold_right]. rewrite Z.add_0_r. unfold overlap. lia.
  - rewrite seq_S, map_app, fold_right_app. cbn [map fold_right Nat.add].
    assert (Hsum : forall (l : list Z) (z : Z),
               fold_right Z.add z l = fold_right Z.add 0 l + z).
    { intros l z. induction l as [|x l IHl]; cbn [fold_right]; lia. }
    rewrite Hsum, IH.
    pose proof (month_start_le a n) as H1.
    pose proof (month_start_le (a + Z.of_nat n) 1) as H2.
    replace (a + Z.of_nat (S n)) with (a + Z.of_nat n + 1) by lia.
    change (Z.of_nat 1) with 1 in H2.
    unfold overlap. lia.
Qed.

Lemma Qsum_scaled (rate : Q) (days : list Z) :
  (Engine.Qsum (map (fun d => rate * inject_Z d) days)
   == rate * inject_Z (fold_right Z.add 0%Z days))%Q.
Proof.
  induction days as [|d days IH]; cbn [map fold_right Engine.Qsum].
  - ring.
  - fold (Engine.Qsum (map (fun d => (rate * inject_Z d)%Q) days)).
    rewrite IH, inject_Z_plus. ring.
Qed.

(** The income of a range is the daily rate times the days of the lease that
    fall into the months of the range. *)
Lemma total_income_days (c : Engine.Contract) (r : Engine.MonthRange) :
  (Engine.total_income c r
   == Engine.daily_income_rate c
      * inject_Z (overlap (Engine.ordinal (Engine.delivery_date c))
                    (Engine.ordinal (Engine.expiry_date c))
                    (Engine.month_start (Engine.month_index (Engine.start_month r)))
                    (Engine.month_start
                       (Engine.month_index (Engine.start_month r)
                        + Z.of_nat (Z.to_nat (Engine.month_index (Engine.end_month r)
                                              - Engine.month_index (Engine.start_month r) + 1)))%Z)))%Q.
Proof.
  unfold Engine.total_income, Engine.months_in_range.
  rewrite map_map.
  rewrite (map_ext _ _ (fun k => month_income_cell c _)).
  rewrite <- (map_map
                (fun k => overlap (Engine.ordinal (Engine.delivery_date c))
                            (Engine.ordinal (Engine.expiry_date c))
                            (Engine.month_start
                               (Engine.month_index (Engine.start_month r) + Z.of_nat k))
                            (Engine.month_start
                               (Engine.month_index (Engine.start_month r) + Z.of_nat k + 1)))
                (fun d => (Engine.daily_income_rate c * inject_Z d)%Q)).
  rewrite Qsum_scaled, overlap_of_months. apply Qeq_refl.
Qed.

(** Over a range that covers the lease term the income is the whole contract
    value. *)
Lemma full_term_income (c : Engine.Contract) (r : Engine.MonthRange) :
  Engine.ordinal (Engine.delivery_date c) <= Engine.ordinal (Engine.expiry_date c) ->
  covers_term r c ->
  (Engine.total_income c r == Engine.total_contract_value c)%Q.
Proof.
  intros Hterm [Hstart Hend].
  rewrite total_income_days.
  set (a := Engine.month_index (Engine.start_month r)) in *.
  set (b := Engine.month_index (Engine.end_month r)) in *.
  assert (Hab : a <= b).
  { destruct (Z_le_gt_dec a b) as [H|H]; [exact H|].
    pose proof (month_start_le (b + 1) (Z.to_nat (a - (b + 1)))) as Hmono.
    replace (b + 1 + Z.of_nat (Z.to_nat (a - (b + 1)))) with a in Hmono by lia.
    lia. }
  replace (a + Z.of_nat (Z.to_nat (b - a + 1))) with (b + 1) by lia.
  assert (Hdays :
    overlap (Engine.ordinal (Engine.delivery_date c)) (Engine.ordinal (Engine.expiry_date c))
      (Engine.month_start a) (Engine.month_start (b + 1))
    = Engine.total_lease_days c).
  { unfold overlap, Engine.total_lease_days. lia. }
  rewrite Hdays. unfold Engine.daily_income_rate.
  field. unfold Engine.total_lease_days.
  intros Hzero. unfold Qeq in Hzero. cbn [Qnum Qden inject_Z] in Hzero. lia.
Qed.

Lemma month_income_free (c : Engine.Contract) (f : Z) (mi : Z) :
  Engine.month_income (Engine.with_free_rent_days f c) mi = Engine.month_income c mi.
Proof.
  unfold Engine.month_income, Engine.daily_income_rate, Engine.total_contract_value,
    Engine.term_days_in_month, Engine.lease_days, Engine.total_lease_days.
  reflexivity.
Qed.

(** C3: the income of a contract over a range of months is the same for
    every number of free-rent days; over a range that covers the whole lease
    term it is the total contract value, the sum of the daily rents of all
    days of the term. *)
Theorem total_income_ignores_free_rent_days
    (c : Engine.Contract) (f1 f2 : Z) (r : Engine.MonthRange) :
  Engine.total_income (Engine.with_free_rent_days f1 c) r
    = Engine.total_income (Engine.with_free_rent_days f2 c) r /\
  (Engine.ordinal (Engine.delivery_date c) <= Engine.ordinal (Engine.expiry_date c) ->
   covers_term r c ->
   (Engine.total_income (Engine.with_free_rent_days f1 c) r
    == Engine.total_contract_value c)%Q /\
   (Engine.total_income (Engine.with_free_rent_days f2 c) r
    == Engine.total_contract_value c)%Q).
Proof.
  assert (Hfree : forall f,
    Engine.total_income (Engine.with_free_rent_days f c) r = Engine.total_income c r).
  { intros f. unfold Engine.total_income.
    rewrite (map_ext _ _ (month_income_free c f)). reflexivity. }
  split.
  - rewrite (Hfree f1), (Hfree f2). reflexivity.
  - intros Hterm Hcover. rewrite (Hfree f1), (Hfree f2).
    split; apply full_term_income; assumption.
Qed.

Lemma Qsum_per_day (rent : Z -> Q) (days : list Z) :
  (Engine.Qsum (map (fun d => rent d / 365) days) == Engine.Qsum (map rent days) / 365)%Q.
Proof.
  induction days as [|d days IH]; cbn [map Engine.Qsum fold_right].
  - reflexivity.
  - fold (Engine.Qsum (map (fun d => (rent d / 365)%Q) days)).
    fold (Engine.Qsum (map rent days)).
    rewrite IH. field.
Qed.

(** The worked example of the specification: 24600.00 with no free rent and
    with 30 days of it. *)
Example example_income :
  (Engine.total_income (example_contract 0) example_range == 24600)%Q /\
  (Engine.total_income (example_contract 30) example_range == 24600)%Q.
Proof.
  split; rewrite full_term_income;
    solve [ unfold Engine.total_contract_value; rewrite Qsum_per_day;
            vm_compute; reflexivity
          | vm_compute; discriminate
          | split; vm_compute; [discriminate | reflexivity] ].
Qed.

Lemma total_income_ignores_free_rent_days_witness :
  (Engine.total_income (Engine.with_free_rent_days 0 (example_contract 30)) example_range
   == Engine.total_contract_value (example_contract 30))%Q /\
  (Engine.total_income (Engine.with_free_rent_days 45 (example_contract 30)) example_range
   == Engine.total_contract_value (example_contract 30))%Q.
Proof.
  assert (Hterm : Engine.ordinal (Engine.delivery_date (example_contract 30))
                  <= Engine.ordinal (Engine.expiry_date (example_contract 30)))
    by (vm_compute; discriminate).
  assert (Hcover : covers_term example_range (example_contract 30))
    by (split; vm_compute; [discriminate | reflexivity]).
  exact (proj2 (total_income_ignores_free_rent_days (example_contract 30) 0 45 example_range)
           Hterm Hcover).
Defined.

(* ===================================================================== *)
(** * The workbooks arrive as they were serialised                         *)
(* ===================================================================== *)

Lemma list_ind3 {A : Type} (P : list A -> Prop) :
  P [] -> (forall a, P [a]) -> (forall a b, P [a; b]) ->
  (forall a b c l, P l -> P (a :: b :: c :: l)) ->
  forall l, P l.
Proof.
  intros H0 H1 H2 H3 l.
  assert (H : forall n l, (length l <= n)%nat -> P l).
  { clear l. induction n as [|n IH]; intros l Hl.
    - destruct l; [exact H0 | cbn in Hl; lia].
    - destruct l as [|a [|b [|c l]]]; auto.
      apply H3, IH. cbn in Hl. lia. }
  apply (H (length l)). lia.
Qed.

Lemma byte_value_range (b : ascii) : 0 <= Engine.byte_value b < 256.
Proof.
  unfold Engine.byte_value. pose proof (N_ascii_bounded b). lia.
Qed.

Lemma sextets_range (bytes : list ascii) : Forall is_sextet (sextets bytes).
Proof.
  induction bytes as [| b0 | b0 b1 | b0 b1 b2 rest IH] using list_ind3;
    cbn [sextets]; cbv zeta;
    try pose proof (byte_value_range b0);
    try pose proof (byte_value_range b1);
    try pose proof (byte_value_range b2);
    repeat (constructor; [unfold is_sextet; lia_div|]);
    try constructor; exact IH.
Qed.

Lemma code_of_ascii (n : Z) :
  0 <= n < 256 -> Z.of_N (N_of_ascii (ascii_of_N (Z.to_N n))) = n.
Proof. intros Hn. rewrite N_ascii_embedding by lia. lia. Qed.

(** Decoding a character of the alphabet gives its value back. *)
Lemma base64_value_char (v : Z) :
  is_sextet v -> JS.base64_value (Engine.base64_char v) = Some v.
Proof.
  unfold is_sextet, JS.base64_value, Engine.base64_char. intros Hv.
  destruct (Z.ltb_spec v 26) as [H26|H26].
  - rewrite code_of_ascii by lia.
    destruct (Z.leb_spec 65 (65 + v)); [|lia].
    destruct (Z.leb_spec (65 + v) 90); [|lia].
    cbn [andb]. f_equal. lia.
  - destruct (Z.ltb_spec v 52) as [H52|H52].
    + rewrite code_of_ascii by lia.
      destruct (Z.leb_spec (97 + (v - 26)) 90); [lia|]. rewrite andb_false_r.
      destruct (Z.leb_spec 97 (97 + (v - 26))); [|lia].
      destruct (Z.leb_spec (97 + (v - 26)) 122); [|lia].
      cbn [andb]. f_equal. lia.
    + destruct (Z.ltb_spec v 62) as [H62|H62].
      * rewrite code_of_ascii by lia.
        destruct (Z.leb_spec 65 (48 + (v - 52))); [lia|]. cbn [andb].
        destruct (Z.leb_spec 97 (48 + (v - 52))); [lia|]. cbn [andb].
        destruct (Z.leb_spec 48 (48 + (v - 52))); [|lia].
        destruct (Z.leb_spec (48 + (v - 52)) 57); [|lia].
        cbn [andb]. f_equal. lia.
      * assert (Hcases : v = 62 \/ v = 63) by lia.
        destruct Hcases as [-> | ->]; reflexivity.
Qed.

(** A character of the alphabet is neither white space nor the padding
    sign. *)
Lemma base64_char_plain (c : ascii) (v : Z) :
  JS.base64_value c = Some v ->
  JS.is_ascii_whitespace c = false /\ JS.is_equals c = false.
Proof.
  unfold JS.base64_value, JS.is_ascii_whitespace, JS.is_equals.
  set (n := N_of_ascii c).
  destruct (Z.leb_spec 65 (Z.of_N n)); cbn [andb];
    [destruct (Z.leb_spec (Z.of_N n) 90); cbn [andb]|].
  1: { intros _. split; repeat (apply orb_false_intro); apply N.eqb_neq; lia. }
  all: destruct (Z.leb_spec 97 (Z.of_N n)); cbn [andb];
       [destruct (Z.leb_spec (Z.of_N n) 122); cbn [andb]|];
       try (intros _; split; repeat (apply orb_false_intro); apply N.eqb_neq; lia).
  all: destruct (Z.leb_spec 48 (Z.of_N n)); cbn [andb];
       [destruct (Z.leb_spec (Z.of_N n) 57); cbn [andb]|];
       try (intros _; split; repeat (apply orb_false_intro); apply N.eqb_neq; lia).
  all: destruct (Z.eqb_spec (Z.of_N n) 43);
       try (intros _; split; repeat (apply orb_false_intro); apply N.eqb_neq; lia).
  all: destruct (Z.eqb_spec (Z.of_N n) 47);
       try (intros _; split; repeat (apply orb_false_intro); apply N.eqb_neq; lia).
  all: discriminate.
Qed.

(** [base64_encode] prints the characters of the sextets, then the padding. *)
Lemma base64_encode_chars (bytes : list ascii) :
  list_ascii_of_string (Engine.base64_encode bytes)
  = (map Engine.base64_char (sextets bytes) ++ padding bytes)%list.
Proof.
  induction bytes as [| b0 | b0 b1 | b0 b1 b2 rest IH] using list_ind3;
    try reflexivity.
  cbn [Engine.base64_encode sextets padding]. cbv zeta.
  cbn [list_ascii_of_string map app]. now rewrite IH.
Qed.

Lemma sextets_length (bytes : list ascii) :
  (length (sextets bytes) mod 4 <> 1)%nat /\
  ((length (sextets bytes) + length (padding bytes)) mod 4 = 0)%nat /\
  (padding bytes = [] \/ padding bytes = ["="%char]
   \/ padding bytes = ["="%char; "="%char]).
Proof.
  induction bytes as [| b0 | b0 b1 | b0 b1 b2 rest IH] using list_ind3;
    try (cbn; repeat split; auto; lia).
  cbn [sextets padding length]. cbv zeta. cbn [length].
  destruct IH as (H1 & H2 & H3). repeat split; [| |exact H3].
  - replace (S (S (S (S (length (sextets rest))))))
      with (length (sextets rest) + 1 * 4)%nat by lia.
    now rewrite Nat.Div0.mod_add.
  - replace (S (S (S (S (length (sextets rest))))) + length (padding rest))%nat
      with (length (sextets rest) + length (padding rest) + 1 * 4)%nat by lia.
    now rewrite Nat.Div0.mod_add.
Qed.

Lemma chars_are_plain (values : list Z) :
  Forall is_sextet values ->
  Forall (fun c => JS.is_ascii_whitespace c = false /\ JS.is_equals c = false)
         (map Engine.base64_char values).
Proof.
  intros H. induction H as [|v values Hv _ IH]; cbn [map]; constructor; [|exact IH].
  exact (base64_char_plain _ v (base64_value_char v Hv)).
Qed.

Lemma base64_values_chars (values : list Z) :
  Forall is_sextet values ->
  JS.base64_values (map Engine.base64_char values) = Some values.
Proof.
  intros H. induction H as [|v values Hv _ IH]; cbn [map JS.base64_values];
    [reflexivity|].
  now rewrite (base64_value_char v Hv), IH.
Qed.

(** Step 2 of the decode removes exactly the padding. *)
Lemma remove_padding_exact (chars pad : list ascii) :
  Forall (fun c => JS.is_equals c = false) chars ->
  ((length chars + length pad) mod 4 = 0)%nat ->
  pad = [] \/ pad = ["="%char] \/ pad = ["="%char; "="%char] ->
  JS.remove_padding (chars ++ pad) = chars.
Proof.
  intros Hplain Hlen Hpad. unfold JS.remove_padding.
  rewrite length_app, Hlen. cbn [Nat.eqb].
  rewrite rev_app_distr.
  assert (Hlast : forall c rest, rev chars = c :: rest -> JS.is_equals c = false).
  { intros c rest Hrev. rewrite Forall_forall in Hplain. apply Hplain.
    apply list_elem_of_In, in_rev. rewrite Hrev. left. reflexivity. }
  destruct Hpad as [-> | [-> | ->]]; cbn [rev app].
  - rewrite app_nil_r.
    destruct (rev chars) as [|c1 [|c2 rest]] eqn:Hrev; try reflexivity.
    now rewrite (Hlast _ _ eq_refl).
  - destruct (rev chars) as [|c2 rest] eqn:Hrev.
    + apply (f_equal (@length ascii)) in Hrev. rewrite length_rev in Hrev.
      cbn [length] in *. rewrite Hrev in Hlen. discriminate Hlen.
    + change (JS.is_equals "=") with true. cbn iota.
      rewrite (Hlast _ _ eq_refl).
      change (rev rest ++ [c2])%list with (rev (c2 :: rest)).
      rewrite <- Hrev. apply rev_involutive.
  - change (JS.is_equals "=") with true. cbn iota. apply rev_involutive.
Qed.

Lemma filter_plain (chars pad : list ascii) :
  Forall (fun c => JS.is_ascii_whitespace c = false /\ JS.is_equals c = false) chars ->
  pad = [] \/ pad = ["="%char] \/ pad = ["="%char; "="%char] ->
  List.filter (fun c => negb (JS.is_ascii_whitespace c)) (chars ++ pad) = (chars ++ pad)%list.
Proof.
  intros Hplain Hpad. rewrite List.filter_app. f_equal.
  - induction Hplain as [|c chars [Hc _] _ IH]; cbn [List.filter]; [reflexivity|].
    now rewrite Hc, IH.
  - destruct Hpad as [-> | [-> | ->]]; reflexivity.
Qed.

(** The buffer of the decode gives the bytes back. *)
Lemma decode_sextets (bytes : list ascii) :
  JS.decode_buffer (sextets bytes) 0 0 = map Engine.byte_value bytes.
Proof.
  induction bytes as [| b0 | b0 b1 | b0 b1 b2 rest IH] using list_ind3;
    cbn [sextets JS.decode_buffer map Z.add Z.mul Z.eqb Pos.eqb Pos.add Pos.succ];
    cbv zeta;
    cbn [JS.decode_buffer Z.add Z.mul Z.eqb Pos.eqb Pos.add Pos.succ];
    try pose proof (byte_value_range b0);
    try pose proof (byte_value_range b1);
    try pose proof (byte_value_range b2).
  - reflexivity.
  - f_equal. lia_div.
  - f_equal; [lia_div | f_equal; lia_div].
  - rewrite IH. f_equal; [lia_div | f_equal; [lia_div | f_equal; lia_div]].
Qed.

(** Encoding and then [atob]: the code units are the bytes. *)
Lemma atob_base64_encode (bytes : list ascii) :
  JS.atob (Engine.base64_encode bytes) = Some (map Engine.byte_value bytes).
Proof.
  unfold JS.atob. rewrite base64_encode_chars.
  pose proof (sextets_range bytes) as Hrange.
  pose proof (chars_are_plain _ Hrange) as Hplain.
  destruct (sextets_length bytes) as (Hmod & Hlen & Hpad).
  rewrite (filter_plain _ _ Hplain Hpad).
  rewrite remove_padding_exact; [| |now rewrite length_map|exact Hpad].
  2: { eapply Forall_impl; [exact Hplain|]. intros c [_ Hc]. exact Hc. }
  rewrite length_map.
  destruct (Nat.eqb_spec (length (sextets bytes) mod 4) 1) as [Hbad|_]; [contradiction|].
  rewrite (base64_values_chars _ Hrange), decode_sextets. reflexivity.
Qed.

(** A download of an encoded workbook saves the workbook. *)
Lemma download_of_encoded (bytes : list ascii) (filename : string) :
  Page.downloadBase64 (Engine.base64_encode bytes) filename
  = Some {| Page.saved_blob := {| Page.blob_bytes := map Engine.byte_value bytes;
                                  Page.blob_type := xlsx_type |};
            Page.saved_as := filename |}.
Proof.
  unfold Page.downloadBase64. rewrite atob_base64_encode.
  rewrite fill_bytes_exact; [reflexivity|].
  apply Forall_forall. intros z Hz. apply list_elem_of_In, in_map_iff in Hz as (b & <- & _).
  apply byte_value_range.
Qed.

(* ===================================================================== *)
(** * The response of a successful calculation                             *)
(* ===================================================================== *)

Section SuccessBody.

Variable workbook_of_summary : list Engine.ContractSummaryRow -> list ascii.
Variable workbook_of_matrix : list (list Q) -> list ascii.

Lemma row_json_shape (row : Engine.ContractSummaryRow) :
  Page.as_ContractSummary (Engine.row_json row) = Some (received_row row).
Proof. reflexivity. Qed.

Lemma summary_json_shape (rows : list Engine.ContractSummaryRow) :
  Page.as_summary (map Engine.row_json rows) = Some (map received_row rows).
Proof.
  induction rows as [|row rows IH]; [reflexivity|].
  cbn [map Page.as_summary]. rewrite row_json_shape, IH. reflexivity.
Qed.

(** C1: the body of a successful response has the members [summary] (an
    array with one row per contract, in order), [total_receivable],
    [total_income], [contract_count] and [files] with the three encoded
    workbooks [lease], [single] and [income]; it has the [CalcResult] shape,
    each download button saves the workbook that was serialised for it, and
    [handleSubmit] stores the body as the result with status done. *)
Theorem success_response_is_a_CalcResult
    (rt : JS.runtime) (st : Page.State) (resp : Page.Response)
    (figures : list Engine.ContractFigures) :
  Page.ok resp = true ->
  Page.resp_json resp
    = inr (Engine.success_body workbook_of_summary workbook_of_matrix
             (Engine.build_report figures)) ->
  (exists rows tr ti cc lease single income,
      JS.member "summary" (Engine.success_body workbook_of_summary workbook_of_matrix
                             (Engine.build_report figures)) = Some (JS.JArray rows) /\
      length rows = length figures /\
      JS.member "total_receivable" (Engine.success_body workbook_of_summary workbook_of_matrix
                                      (Engine.build_report figures)) = Some (JS.JNumber tr) /\
      JS.member "total_income" (Engine.success_body workbook_of_summary workbook_of_matrix
                                  (Engine.build_report figures)) = Some (JS.JNumber ti) /\
      JS.member "contract_count" (Engine.success_body workbook_of_summary workbook_of_matrix
                                    (Engine.build_report figures)) = Some (JS.JNumber cc) /\
      JS.member "files" (Engine.success_body workbook_of_summary workbook_of_matrix
                           (Engine.build_report figures))
        = Some (JS.JObject [ ("lease", JS.JString lease); ("single", JS.JString single);
                             ("income", JS.JString income) ])) /\
  (exists r : Page.CalcResult,
      Page.as_CalcResult (Engine.success_body workbook_of_summary workbook_of_matrix
                            (Engine.build_report figures)) = Some r /\
      Page.summary r = map (fun f => received_row (Engine.summary_row f)) figures /\
      Page.total_receivable r
        = JS.binary64 (Engine.report_total_receivable (Engine.build_report figures)) /\
      Page.total_income r
        = JS.binary64 (Engine.report_total_income (Engine.build_report figures)) /\
      Page.contract_count r = JS.binary64 (inject_Z (Z.of_nat (length figures))) /\
      Page.onClick_download Page.lease_button r
        = Some {| Page.saved_blob :=
                    {| Page.blob_bytes :=
                         map Engine.byte_value
                           (workbook_of_summary (map Engine.summary_row figures));
                       Page.blob_type := xlsx_type |};
                  Page.saved_as := "lease.xlsx" |} /\
      Page.onClick_download Page.single_button r
        = Some {| Page.saved_blob :=
                    {| Page.blob_bytes :=
                         map Engine.byte_value
                           (workbook_of_matrix (map Engine.receivable_cells figures));
                       Page.blob_type := xlsx_type |};
                  Page.saved_as := "single.xlsx" |} /\
      Page.onClick_download Page.income_button r
        = Some {| Page.saved_blob :=
                    {| Page.blob_bytes :=
                         map Engine.byte_value
                           (workbook_of_matrix (map Engine.income_cells figures));
                       Page.blob_type := xlsx_type |};
                  Page.saved_as := "income.xlsx" |}) /\
  Page.status (Page.handleSubmit_receive rt (Page.Fulfilled resp) st) = Page.done /\
  Page.result (Page.handleSubmit_receive rt (Page.Fulfilled resp) st)
    = Some (Engine.success_body workbook_of_summary workbook_of_matrix
              (Engine.build_report figures)).
Proof.
  intros Hok Hbody. split; [|split].
  - eexists _, _, _, _, _, _, _.
    split; [reflexivity|]. split; [|repeat split; reflexivity].
    cbn [Engine.build_report Engine.summary_table]. now rewrite !length_map.
  - eexists. split.
    + unfold Page.as_CalcResult, Engine.success_body.
      cbn [JS.member JS.assoc String.eqb Ascii.eqb Bool.eqb Page.as_number Page.as_CalcFiles
           Page.as_string].
      rewrite summary_json_shape. reflexivity.
    + cbn [Page.summary Page.total_receivable Page.total_income Page.contract_count
           Page.files Page.onClick_download Page.lease Page.single Page.income_file
           Engine.build_report Engine.summary_table Engine.receivable_matrix
           Engine.income_matrix Engine.report_contract_count].
      rewrite map_map, !download_of_encoded. repeat split.
  - unfold Page.handleSubmit_receive. rewrite Hbody, Hok.
    unfold Engine.success_body.
    cbn [negb orb JS.member JS.assoc String.eqb Ascii.eqb Bool.eqb JS.truthy_opt].
    split; reflexivity.
Qed.

End SuccessBody.

Lemma success_response_is_a_CalcResult_witness :
  Page.status
    (Page.handleSubmit_receive sample_runtime
       (answer_with 200
          (Engine.success_body (fun _ => list_ascii_of_string "PK-summary")
             (fun _ => list_ascii_of_string "PK-matrix") (Engine.build_report sample_figures))
          {| Page.url := "/api/calculate"; Page.method := "POST"; Page.body := [] |})
       sample_state) = Page.done.
Proof.
  exact (proj1 (proj2 (proj2
    (success_response_is_a_CalcResult (fun _ => list_ascii_of_string "PK-summary")
       (fun _ => list_ascii_of_string "PK-matrix") sample_runtime sample_state
       {| Page.resp_status := 200;
          Page.resp_json :=
            inr (Engine.success_body (fun _ => list_ascii_of_string "PK-summary")
                   (fun _ => list_ascii_of_string "PK-matrix")
                   (Engine.build_report sample_figures)) |}
       sample_figures eq_refl eq_refl)))).
Defined.

(* ===================================================================== *)
(** * More on the handlers                                                 *)
(* ===================================================================== *)

Lemma handleSubmit_receive_keeps_inputs
    (rt : JS.runtime) (o : Page.fetch_outcome) (st : Page.State) :
  Page.file (Page.handleSubmit_receive rt o st) = Page.file st /\
  Page.startMonth (Page.handleSubmit_receive rt o st) = Page.startMonth st /\
  Page.endMonth (Page.handleSubmit_receive rt o st) = Page.endMonth st /\
  Page.isDragging (Page.handleSubmit_receive rt o st) = Page.isDragging st.
Proof.
  unfold Page.handleSubmit_receive.
  destruct o as [e|resp]; [destruct e; repeat split|].
  destruct (Page.resp_json resp) as [e|data]; [destruct e; repeat split|].
  destruct data;
    try (destruct (negb (Page.ok resp) || JS.truthy_opt (JS.member "error" _)));
    repeat split.
Qed.

(** X1: whatever the guards decide and however the request ends,
    [handleSubmit] leaves the chosen file, the two months and the dragging
    flag as they were. *)
Theorem handleSubmit_keeps_inputs
    (rt : JS.runtime) (net : Page.Request -> Page.fetch_outcome) (st : Page.State) :
  Page.file (Page.handleSubmit rt net st) = Page.file st /\
  Page.startMonth (Page.handleSubmit rt net st) = Page.startMonth st /\
  Page.endMonth (Page.handleSubmit rt net st) = Page.endMonth st /\
  Page.isDragging (Page.handleSubmit rt net st) = Page.isDragging st.
Proof.
  unfold Page.handleSubmit, Page.handleSubmit_send.
  destruct (Page.file st) as [f|] eqn:Hfile; [|repeat split; cbn; congruence].
  destruct (String.eqb (Page.startMonth st) "" || String.eqb (Page.endMonth st) "");
    [repeat split; cbn; congruence|].
  match goal with
  | |- context [Page.handleSubmit_receive rt ?o ?s] =>
      destruct (handleSubmit_receive_keeps_inputs rt o s) as (H1 & H2 & H3 & H4);
      rewrite H1, H2, H3, H4
  end.
  cbn. repeat split. congruence.
Qed.

(** X2: a request that was sent ends with status done exactly when the
    response is ok, its body is not [null] and [data.error] is falsy; the
    body is then the stored result, and the error box is not shown. *)
Theorem handleSubmit_done_iff
    (rt : JS.runtime) (net : Page.Request -> Page.fetch_outcome)
    (st st1 : Page.State) (req : Page.Request) :
  Page.handleSubmit_send st = (st1, Some req) ->
  (Page.status (Page.handleSubmit rt net st) = Page.done <->
   exists resp data,
     net req = Page.Fulfilled resp /\ Page.resp_json resp = inr data /\
     data <> JS.JNull /\ Page.ok resp = true /\
     JS.truthy_opt (JS.member "error" data) = false) /\
  (forall resp data,
     net req = Page.Fulfilled resp -> Page.resp_json resp = inr data ->
     data <> JS.JNull -> Page.ok resp = true ->
     JS.truthy_opt (JS.member "error" data) = false ->
     Page.result (Page.handleSubmit rt net st) = Some data /\
     Page.error_box (Page.Home rt (Page.handleSubmit rt net st)) = None).
Proof.
  intros Hsend. unfold Page.handleSubmit. rewrite Hsend.
  unfold Page.handleSubmit_receive. split.
  - split.
    + destruct (net req) as [e|resp]; [destruct e; discriminate|].
      destruct (Page.resp_json resp) as [e|data] eqn:Hjson; [destruct e; discriminate|].
      destruct (negb (Page.ok resp) || JS.truthy_opt (JS.member "error" data)) eqn:Hguard.
      * destruct data; try discriminate;
          destruct (JS.member "error" _) as [e|]; try discriminate;
          destruct (JS.truthy e); discriminate.
      * intros Hdone. apply orb_false_elim in Hguard as [Hok Herr].
        apply negb_false_iff in Hok.
        exists resp, data. repeat split; try assumption.
        intros ->. discriminate Hdone.
    + intros (resp & data & -> & -> & Hnull & Hok & Herr).
      rewrite Hok, Herr. destruct data; try contradiction; reflexivity.
  - intros resp data -> -> Hnull Hok Herr.
    rewrite Hok, Herr. destruct data; try contradiction; split; reflexivity.
Qed.

Lemma handleSubmit_done_iff_witness :
  Page.status (Page.handleSubmit sample_runtime (answer_with 200 sample_body) sample_state)
    = Page.done /\
  Page.result (Page.handleSubmit sample_runtime (answer_with 200 sample_body) sample_state)
    = Some sample_body.
Proof.
  pose proof (handleSubmit_done_iff sample_runtime (answer_with 200 sample_body)
                sample_state _ _ eq_refl) as [Hiff Hres].
  split.
  - apply (proj2 Hiff).
    exists {| Page.resp_status := 200; Page.resp_json := inr sample_body |}, sample_body.
    repeat split. discriminate.
  - refine (proj1 (Hres {| Page.resp_status := 200; Page.resp_json := inr sample_body |}
                     sample_body eq_refl eq_refl _ eq_refl eq_refl)).
    discriminate.
Defined.

Lemma same_length_suffix (a b s t : string) :
  a ++ s = b ++ t -> String.length s = String.length t -> s = t.
Proof.
  revert b. induction a as [|x a IH]; intros b Heq Hlen.
  - destruct b as [|y b]; [exact Heq|].
    apply (f_equal String.length) in Heq. cbn in Heq.
    rewrite string_length_app in Heq. lia.
  - destruct b as [|y b].
    + apply (f_equal String.length) in Heq. cbn in Heq.
      rewrite string_length_app in Heq. lia.
    + cbn in Heq. injection Heq as _ Heq. exact (IH b Heq Hlen).
Qed.

(** X3: [handleFileSelect] rejects a file exactly when its name is not some
    prefix followed by ".xlsx"; the test is case-sensitive, so a name that
    ends in ".XLSX" is rejected and the stored file stays as it was. *)
Theorem extension_check_is_exact (f : Page.File) (st : Page.State) :
  (Page.status (Page.handleFileSelect f st) = Page.error <->
   ~ exists p, Page.name f = p ++ ".xlsx") /\
  (forall p, Page.name f = p ++ ".XLSX" ->
     Page.status (Page.handleFileSelect f st) = Page.error /\
     Page.file (Page.handleFileSelect f st) = Page.file st).
Proof.
  assert (Hiff : Page.status (Page.handleFileSelect f st) = Page.error <->
                 ~ exists p, Page.name f = p ++ ".xlsx").
  { unfold Page.handleFileSelect.
    destruct (JS.endsWith (Page.name f) ".xlsx") eqn:Hends; cbn [negb].
    - apply endsWith_suffix in Hends. split; [discriminate | contradiction].
    - split; [|reflexivity]. intros _ Hex. apply endsWith_suffix in Hex. congruence. }
  split; [exact Hiff|].
  intros p Hname.
  assert (Hrej : JS.endsWith (Page.name f) ".xlsx" = false).
  { destruct (JS.endsWith (Page.name f) ".xlsx") eqn:Hends; [|reflexivity].
    apply endsWith_suffix in Hends as [q Hq]. rewrite Hname in Hq.
    apply same_length_suffix in Hq; [discriminate Hq | reflexivity]. }
  unfold Page.handleFileSelect. rewrite Hrej. split; reflexivity.
Qed.

Lemma extension_check_is_exact_witness :
  Page.status (Page.handleFileSelect {| Page.name := "DATA.XLSX"; Page.size := 1 |}
                 sample_state) = Page.error.
Proof.
  exact (proj1 (proj2 (extension_check_is_exact
                         {| Page.name := "DATA.XLSX"; Page.size := 1 |} sample_state)
                  "DATA" eq_refl)).
Defined.

Lemma hyphenated_not_empty (a b : string) : String.eqb (a ++ "-" ++ b) "" = false.
Proof. destruct a; reflexivity. Qed.

(** X4: the month fields that [Home] starts with are never empty, whatever
    the date: once a file named "....xlsx" is selected in the initial state,
    a click on submit sends the request, with the default months followed
    by "-01". *)
Theorem default_months_pass_the_guard (now : Page.Date) (f : Page.File) :
  JS.endsWith (Page.name f) ".xlsx" = true ->
  exists st',
    Page.handleSubmit_send (Page.handleFileSelect f (Page.initial now))
    = (st',
       Some {| Page.url := "/api/calculate"; Page.method := "POST";
               Page.body :=
                 [ ("file", Page.FormFile f);
                   ("start", Page.FormText (Page.start (Page.getDefaultDates now) ++ "-01"));
                   ("end", Page.FormText (Page.end_ (Page.getDefaultDates now) ++ "-01")) ] |})
    /\ Page.status st' = Page.uploading.
Proof.
  intros Hext. unfold Page.handleFileSelect. rewrite Hext. cbn [negb].
  unfold Page.handleSubmit_send.
  cbn [Page.file Page.setResult Page.setErrorMsg Page.setStatus Page.setFile Page.initial
       Page.startMonth Page.endMonth].
  unfold Page.getDefaultDates at 1 2. cbn [Page.start Page.end_].
  rewrite !hyphenated_not_empty. cbn [orb].
  eexists. split; reflexivity.
Qed.

Lemma default_months_pass_the_guard_witness :
  exists st',
    Page.handleSubmit_send
      (Page.handleFileSelect sample_file
         (Page.initial {| Page.getFullYear := 2026; Page.getMonth := 10 |}))
    = (st',
       Some {| Page.url := "/api/calculate"; Page.method := "POST";
               Page.body := [ ("file", Page.FormFile sample_file);
                              ("start", Page.FormText "2026-11-01");
                              ("end", Page.FormText "2026-12-01") ] |})
    /\ Page.status st' = Page.uploading.
Proof.
  exact (default_months_pass_the_guard {| Page.getFullYear := 2026; Page.getMonth := 10 |}
           sample_file eq_refl).
Defined.

(* ===================================================================== *)
(** * Sessions                                                             *)
(* ===================================================================== *)

Lemma invariant_at_start (now : Page.Date) : session_invariant (Events.start now).
Proof.
  unfold session_invariant, Events.start; cbn.
  repeat split; try discriminate; try constructor; lia.
Qed.

(** An update of the dragging flag or of a month keeps what the invariant
    speaks of. *)
Lemma invariant_on_ui (f : Page.State -> Page.State) (s : Events.Session) :
  (forall st, Page.file (f st) = Page.file st /\ Page.status (f st) = Page.status st /\
              Page.result (f st) = Page.result st /\ Page.errorMsg (f st) = Page.errorMsg st) ->
  session_invariant s -> session_invariant (Events.on_ui f s).
Proof.
  intros Hf Hinv.
  destruct (Hf (Events.ui s)) as (E1 & E2 & E3 & E4).
  unfold session_invariant, Events.on_ui in *; cbn [Events.ui Events.sent Events.in_flight].
  rewrite E1, E2, E3, E4. exact Hinv.
Qed.

Lemma invariant_handleFileSelect (f : Page.File) (s : Events.Session) :
  session_invariant s -> session_invariant (Events.on_ui (Page.handleFileSelect f) s).
Proof.
  intros (Hfile & Hsent & Hcount & Hidle & Hup & Hdone & Herr).
  unfold session_invariant, Events.on_ui, Page.handleFileSelect;
    cbn [Events.ui Events.sent Events.in_flight].
  destruct (JS.endsWith (Page.name f) ".xlsx") eqn:Hends; cbn.
  - repeat split; auto; try discriminate.
    intros g Hg. injection Hg as <-. exact Hends.
  - repeat split; auto; discriminate.
Qed.

Lemma invariant_handleDrop (dropped : list Page.File) (s : Events.Session) :
  session_invariant s -> session_invariant (Events.on_ui (Page.handleDrop dropped) s).
Proof.
  intros Hinv. unfold Page.handleDrop.
  assert (Hdrag : session_invariant (Events.on_ui (Page.setIsDragging false) s)).
  { apply invariant_on_ui; [intros st; repeat split | exact Hinv]. }
  destruct dropped as [|f rest]; [exact Hdrag|].
  exact (invariant_handleFileSelect f _ Hdrag).
Qed.

Lemma sent_request (st st' : Page.State) (req : Page.Request) :
  (forall f, Page.file st = Some f -> JS.endsWith (Page.name f) ".xlsx" = true) ->
  Page.handleSubmit_send st = (st', Some req) -> xlsx_request req.
Proof.
  intros Hfile. unfold Page.handleSubmit_send.
  destruct (Page.file st) as [f|] eqn:Hf; [|discriminate].
  destruct (String.eqb_spec (Page.startMonth st) "") as [|Hs]; [discriminate|].
  destruct (String.eqb_spec (Page.endMonth st) "") as [|He]; [discriminate|].
  cbn [orb]. intros H. injection H as _ <-.
  exists f, (Page.startMonth st), (Page.endMonth st). repeat split; auto.
Qed.

Lemma invariant_step (rt : JS.runtime) (e : Events.Event) (s : Events.Session) :
  session_invariant s -> session_invariant (Events.step rt e s).
Proof.
  intros Hinv. destruct e as [| | dropped | chosen | v | v | | o]; cbn [Events.step].
  - apply invariant_on_ui; [intros st; repeat split | exact Hinv].
  - apply invariant_on_ui; [intros st; repeat split | exact Hinv].
  - apply invariant_handleDrop, Hinv.
  - destruct chosen as [|f rest]; [exact Hinv | apply invariant_handleFileSelect, Hinv].
  - apply invariant_on_ui; [intros st; repeat split | exact Hinv].
  - apply invariant_on_ui; [intros st; repeat split | exact Hinv].
  - destruct (Page.submit_disabled (Page.Home rt (Events.ui s))); [exact Hinv|].
    destruct Hinv as (Hfile & Hsent & Hcount & Hidle & Hup & Hdone & Herr).
    destruct (Page.handleSubmit_send (Events.ui s)) as [st' [req|]] eqn:Hsend.
    + pose proof (sent_request _ _ _ Hfile Hsend) as Hreq.
      revert Hsend. unfold Page.handleSubmit_send.
      destruct (Page.file (Events.ui s)) as [f|] eqn:Hf; [|discriminate].
      destruct (String.eqb (Page.startMonth (Events.ui s)) ""
                || String.eqb (Page.endMonth (Events.ui s)) ""); [discriminate|].
      intros H. injection H as <- _.
      unfold session_invariant; cbn.
      rewrite Hf, length_app. cbn [length].
      repeat split; try discriminate; try lia.
      * exact Hfile.
      * apply Forall_app. split; [exact Hsent | constructor; [exact Hreq | constructor]].
    + revert Hsend. unfold Page.handleSubmit_send.
      destruct (Page.file (Events.ui s)) as [f|] eqn:Hf.
      * destruct (String.eqb (Page.startMonth (Events.ui s)) ""
                  || String.eqb (Page.endMonth (Events.ui s)) ""); [|discriminate].
        intros H. injection H as <-.
        unfold session_invariant; cbn. rewrite Hf.
        repeat split; auto; discriminate.
      * intros H. injection H as <-.
        unfold session_invariant; cbn. rewrite Hf.
        repeat split; auto; discriminate.
  - destruct (Events.in_flight s) as [|n] eqn:Hn; [exact Hinv|].
    destruct Hinv as (Hfile & Hsent & Hcount & Hidle & Hup & Hdone & Herr).
    destruct (handleSubmit_receive_keeps_inputs rt o (Events.ui s)) as (Ef & _).
    assert (Hstatus :
      (Page.status (Page.handleSubmit_receive rt o (Events.ui s)) = Page.done /\
       Page.result (Page.handleSubmit_receive rt o (Events.ui s)) <> None) \/
      (Page.status (Page.handleSubmit_receive rt o (Events.ui s)) = Page.error /\
       JS.truthy (Page.errorMsg (Page.handleSubmit_receive rt o (Events.ui s))) = true)).
    { unfold Page.handleSubmit_receive.
      destruct o as [e|resp]; [right; destruct e; split; reflexivity|].
      destruct (Page.resp_json resp) as [e|data]; [right; destruct e; split; reflexivity|].
      destruct data;
        try (right; split; reflexivity);
        destruct (negb (Page.ok resp) || JS.truthy_opt (JS.member "error" _));
        try (left; split; [reflexivity | discriminate]);
        right; cbn;
        try (split; reflexivity).
      destruct (JS.assoc "error" members) as [e|]; [|split; reflexivity].
      destruct (JS.truthy e) eqn:Ht; split; try reflexivity; exact Ht. }
    unfold session_invariant; cbn [Events.ui Events.sent Events.in_flight].
    rewrite Ef. rewrite Hn in Hcount.
    destruct Hstatus as [[Hs Hr] | [Hs Hm]]; rewrite Hs;
      repeat split; auto; try discriminate; try lia.
Qed.

Lemma invariant_run (rt : JS.runtime) (events : list Events.Event) (s : Events.Session) :
  session_invariant s -> session_invariant (Events.run rt events s).
Proof.
  unfold Events.run. revert s.
  induction events as [|e events IH]; intros s Hinv; [exact Hinv|].
  cbn [fold_left]. apply IH, invariant_step, Hinv.
Qed.

(** X5: whatever the user does and however requests end, the file that the
    page holds has a name that ends in ".xlsx", and every request that was
    sent is a POST to /api/calculate made of such a file and of two
    non-empty months with "-01" appended. *)
Theorem only_xlsx_files_are_sent
    (rt : JS.runtime) (now : Page.Date) (events : list Events.Event) :
  (forall f, Page.file (Events.ui (Events.run rt events (Events.start now))) = Some f ->
     JS.endsWith (Page.name f) ".xlsx" = true) /\
  Forall xlsx_request (Events.sent (Events.run rt events (Events.start now))) /\
  (Events.in_flight (Events.run rt events (Events.start now))
   <= length (Events.sent (Events.run rt events (Events.start now))))%nat.
Proof.
  destruct (invariant_run rt events _ (invariant_at_start now)) as (H1 & H2 & H3 & _).
  repeat split; assumption.
Qed.

(** X6: in every session the status tells what is stored: idle, no result
    and no message; uploading, a file is chosen, a request is in flight and
    there is neither result nor message; done, a result is stored; error, the
    message is not empty. *)
Theorem status_tells_what_is_stored
    (rt : JS.runtime) (now : Page.Date) (events : list Events.Event) :
  (Page.status (Events.ui (Events.run rt events (Events.start now))) = Page.idle ->
     Page.result (Events.ui (Events.run rt events (Events.start now))) = None /\
     Page.errorMsg (Events.ui (Events.run rt events (Events.start now))) = JS.JString "") /\
  (Page.status (Events.ui (Events.run rt events (Events.start now))) = Page.uploading ->
     (1 <= Events.in_flight (Events.run rt events (Events.start now)))%nat /\
     Page.result (Events.ui (Events.run rt events (Events.start now))) = None /\
     Page.errorMsg (Events.ui (Events.run rt events (Events.start now))) = JS.JString "" /\
     Page.file (Events.ui (Events.run rt events (Events.start now))) <> None) /\
  (Page.status (Events.ui (Events.run rt events (Events.start now))) = Page.done ->
     Page.result (Events.ui (Events.run rt events (Events.start now))) <> None) /\
  (Page.status (Events.ui (Events.run rt events (Events.start now))) = Page.error ->
     JS.truthy (Page.errorMsg (Events.ui (Events.run rt events (Events.start now)))) = true).
Proof.
  destruct (invariant_run rt events _ (invariant_at_start now))
    as (_ & _ & _ & H4 & H5 & H6 & H7).
  exact (conj H4 (conj H5 (conj H6 H7))).
Qed.

Lemma only_xlsx_files_are_sent_witness :
  Forall xlsx_request
    (Events.sent (Events.run sample_runtime
                    [Events.InputChange [sample_file]; Events.SubmitClick]
                    (Events.start {| Page.getFullYear := 2026; Page.getMonth := 10 |}))).
Proof.
  exact (proj1 (proj2 (only_xlsx_files_are_sent sample_runtime
                         {| Page.getFullYear := 2026; Page.getMonth := 10 |}
                         [Events.InputChange [sample_file]; Events.SubmitClick]))).
Defined.

Lemma status_tells_what_is_stored_witness :
  (1 <= Events.in_flight
          (Events.run sample_runtime [Events.InputChange [sample_file]; Events.SubmitClick]
             (Events.start {| Page.getFullYear := 2026; Page.getMonth := 10 |})))%nat.
Proof.
  exact (proj1 (proj1 (proj2 (status_tells_what_is_stored sample_runtime
                                {| Page.getFullYear := 2026; Page.getMonth := 10 |}
                                [Events.InputChange [sample_file]; Events.SubmitClick]))
                  eq_refl)).
Defined.

(** X7: while the status is uploading a click on the submit button does
    nothing; but choosing a file named "....xlsx" puts the status back to
    idle, and the next click sends a second request while the first one is
    still in flight. *)
Theorem second_request_while_uploading
    (rt : JS.runtime) (s : Events.Session) (f : Page.File) :
  Page.status (Events.ui s) = Page.uploading ->
  JS.endsWith (Page.name f) ".xlsx" = true ->
  Page.startMonth (Events.ui s) <> "" -> Page.endMonth (Events.ui s) <> "" ->
  Events.step rt Events.SubmitClick s = s /\
  Page.submit_disabled
    (Page.Home rt (Events.ui (Events.step rt (Events.InputChange [f]) s))) = false /\
  Events.in_flight (Events.run rt [Events.InputChange [f]; Events.SubmitClick] s)
    = S (Events.in_flight s) /\
  length (Events.sent (Events.run rt [Events.InputChange [f]; Events.SubmitClick] s))
    = S (length (Events.sent s)) /\
  Page.status (Events.ui (Events.run rt [Events.InputChange [f]; Events.SubmitClick] s))
    = Page.uploading.
Proof.
  intros Hup Hext Hs He.
  split; [cbn [Events.step]; unfold Page.Home; cbn [Page.submit_disabled];
          rewrite Hup; reflexivity|].
  cbn [Events.run fold_left Events.step]. unfold Events.on_ui, Page.handleFileSelect.
  rewrite Hext. cbn [negb Events.ui Events.sent Events.in_flight].
  set (st2 := Page.setResult None
                (Page.setErrorMsg (JS.JString "")
                   (Page.setStatus Page.idle (Page.setFile (Some f) (Events.ui s))))).
  assert (Hdis : Page.submit_disabled (Page.Home rt st2) = false) by reflexivity.
  assert (Hsend : exists st' req, Page.handleSubmit_send st2 = (st', Some req)
                                  /\ Page.status st' = Page.uploading).
  { unfold Page.handleSubmit_send. subst st2.
    cbn [Page.file Page.startMonth Page.endMonth Page.setResult Page.setErrorMsg
         Page.setStatus Page.setFile].
    destruct (String.eqb_spec (Page.startMonth (Events.ui s)) "") as [|_]; [contradiction|].
    destruct (String.eqb_spec (Page.endMonth (Events.ui s)) "") as [|_]; [contradiction|].
    cbn [orb]. eexists _, _. split; reflexivity. }
  destruct Hsend as (st' & req & Hsend & Hst').
  rewrite Hdis, Hsend. cbn [Events.ui Events.sent Events.in_flight].
  rewrite length_app. cbn [length]. repeat split; [lia | exact Hst'].
Qed.

Lemma second_request_while_uploading_witness :
  Events.in_flight
    (Events.run sample_runtime
       [Events.InputChange [sample_file]; Events.SubmitClick]
       (Events.run sample_runtime [Events.InputChange [sample_file]; Events.SubmitClick]
          (Events.start {| Page.getFullYear := 2026; Page.getMonth := 10 |})))
  = 2%nat.
Proof.
  refine (proj1 (proj2 (proj2 (second_request_while_uploading sample_runtime
            (Events.run sample_runtime [Events.InputChange [sample_file]; Events.SubmitClick]
               (Events.start {| Page.getFullYear := 2026; Page.getMonth := 10 |}))
            sample_file eq_refl eq_refl _ _)))); discriminate.
Defined.

(* ===================================================================== *)
(** * More on downloads                                                    *)
(* ===================================================================== *)

(** X8: for any string of code units, the loop of [downloadBase64] fills an
    array of the string's length whose i-th byte is the i-th code unit modulo
    256. *)
Theorem byte_loop_stores_codes_mod_256 (binary : list Z) :
  length (Page.fill_bytes binary) = length binary /\
  (forall (i : nat) (code : Z),
      JS.charCodeAt binary i = Some code ->
      Page.fill_bytes binary !! i = Some (code mod 256)) /\
  Forall is_byte (Page.fill_bytes binary).
Proof.
  rewrite fill_bytes_wraps. split; [apply length_fmap|]. split.
  - intros i code Hi. unfold JS.charCodeAt in Hi.
    now rewrite list_lookup_fmap, Hi.
  - apply Forall_fmap, Forall_forall. intros z _. apply Z.mod_pos_bound. lia.
Qed.

Lemma byte_loop_stores_codes_mod_256_witness :
  Page.fill_bytes [72; 8364; 300] !! 1%nat = Some (8364 mod 256).
Proof.
  exact (proj1 (proj2 (byte_loop_stores_codes_mod_256 [72; 8364; 300])) 1%nat 8364 eq_refl).
Defined.

Lemma base64_values_reject (c : ascii) (data : list ascii) :
  In c data -> JS.base64_value c = None -> JS.base64_values data = None.
Proof.
  intros Hin Hbad. induction data as [|d data IH]; [contradiction|].
  cbn [JS.base64_values]. destruct Hin as [-> | Hin].
  - now rewrite Hbad.
  - rewrite (IH Hin). destruct (JS.base64_value d); reflexivity.
Qed.

Lemma remove_padding_keeps (c : ascii) (data : list ascii) :
  In c data -> JS.is_equals c = false -> In c (JS.remove_padding data).
Proof.
  intros Hin Hc. unfold JS.remove_padding.
  destruct (length data mod 4 =? 0)%nat; [|exact Hin].
  destruct (rev data) as [|c1 [|c2 rest]] eqn:Hrev; try exact Hin.
  assert (Hin' : In c (c1 :: c2 :: rest)) by (rewrite <- Hrev; apply in_rev in Hin; exact Hin).
  destruct (JS.is_equals c1) eqn:H1; [|exact Hin].
  destruct Hin' as [-> | Hin']; [congruence|].
  destruct (JS.is_equals c2) eqn:H2.
  - destruct Hin' as [-> | Hin']; [congruence|]. apply in_rev in Hin'. exact Hin'.
  - apply in_rev in Hin'. exact Hin'.
Qed.

(** X9: a string with a character that is neither of the Base64 alphabet
    (A-Z, a-z, 0-9, plus, slash), nor the padding sign, nor ASCII white space
    makes [atob] throw: [downloadBase64] saves nothing. *)
Theorem invalid_character_saves_nothing (b64 filename : string) (c : ascii) :
  In c (list_ascii_of_string b64) ->
  JS.base64_value c = None -> JS.is_equals c = false ->
  JS.is_ascii_whitespace c = false ->
  JS.atob b64 = None /\ Page.downloadBase64 b64 filename = None.
Proof.
  intros Hin Hbad Heq Hws.
  assert (Hatob : JS.atob b64 = None).
  { unfold JS.atob.
    destruct (length _ mod 4 =? 1)%nat; [reflexivity|].
    rewrite (base64_values_reject c); [reflexivity| |exact Hbad].
    apply remove_padding_keeps; [|exact Heq].
    apply filter_In. split; [exact Hin | now rewrite Hws]. }
  split; [exact Hatob|]. unfold Page.downloadBase64. now rewrite Hatob.
Qed.

Lemma invalid_character_saves_nothing_witness :
  Page.downloadBase64 "TW-u" "lease.xlsx" = None.
Proof.
  refine (proj2 (invalid_character_saves_nothing "TW-u" "lease.xlsx" "-" _ eq_refl eq_refl
                   eq_refl)).
  right. right. left. reflexivity.
Defined.

Lemma remove_padding_plain (chars : list ascii) :
  Forall (fun c => JS.is_equals c = false) chars -> JS.remove_padding chars = chars.
Proof.
  intros Hplain. unfold JS.remove_padding.
  destruct (length chars mod 4 =? 0)%nat; [|reflexivity].
  destruct (rev chars) as [|c1 [|c2 rest]] eqn:Hrev; try reflexivity.
  rewrite Forall_forall in Hplain.
  rewrite (Hplain c1); [reflexivity|].
  apply list_elem_of_In, in_rev. rewrite Hrev. left. reflexivity.
Qed.

(** The decode sees a string through its characters other than white space,
    and takes the sextets with or without the padding. *)
Lemma atob_of_sextets (s : string) (bytes : list ascii) (pad : list ascii) :
  List.filter (fun c => negb (JS.is_ascii_whitespace c)) (list_ascii_of_string s)
    = (map Engine.base64_char (sextets bytes) ++ pad)%list ->
  pad = [] \/ pad = padding bytes ->
  JS.atob s = Some (map Engine.byte_value bytes).
Proof.
  intros Hchars Hpad. unfold JS.atob. rewrite Hchars.
  pose proof (sextets_range bytes) as Hrange.
  pose proof (chars_are_plain _ Hrange) as Hplain.
  destruct (sextets_length bytes) as (Hmod & Hlen & Hshape).
  assert (Hstrip : JS.remove_padding (map Engine.base64_char (sextets bytes) ++ pad)
                   = map Engine.base64_char (sextets bytes)).
  { assert (Hnoeq : Forall (fun c => JS.is_equals c = false)
                      (map Engine.base64_char (sextets bytes))).
    { eapply Forall_impl; [exact Hplain|]. intros c [_ Hc]. exact Hc. }
    destruct Hpad as [-> | ->].
    - rewrite app_nil_r. apply remove_padding_plain, Hnoeq.
    - apply remove_padding_exact; [exact Hnoeq | now rewrite length_map | exact Hshape]. }
  rewrite Hstrip, length_map.
  destruct (Nat.eqb_spec (length (sextets bytes) mod 4) 1) as [Hbad|_]; [contradiction|].
  rewrite (base64_values_chars _ Hrange), decode_sextets. reflexivity.
Qed.

(** X10: round trip.  For every byte sequence, [downloadBase64] applied to its
    Base64 encoding (RFC 4648) saves exactly those bytes, as an xlsx blob
    under the given name; the same holds when ASCII white space is mixed into
    the encoding and when its padding is left out. *)
Theorem download_of_any_rendering (bytes : list ascii) (s filename : string) :
  List.filter (fun c => negb (JS.is_ascii_whitespace c)) (list_ascii_of_string s)
    = list_ascii_of_string (Engine.base64_encode bytes)
  \/ (List.filter (fun c => negb (JS.is_ascii_whitespace c)) (list_ascii_of_string s)
      ++ padding bytes)%list
     = list_ascii_of_string (Engine.base64_encode bytes) ->
  Page.downloadBase64 s filename
  = Some {| Page.saved_blob := {| Page.blob_bytes := map Engine.byte_value bytes;
                                  Page.blob_type := xlsx_type |};
            Page.saved_as := filename |}.
Proof.
  intros Hs.
  assert (Hatob : JS.atob s = Some (map Engine.byte_value bytes)).
  { rewrite base64_encode_chars in Hs. destruct Hs as [Hs | Hs].
    - apply (atob_of_sextets s bytes (padding bytes)); [exact Hs | right; reflexivity].
    - apply app_inv_tail in Hs.
      apply (atob_of_sextets s bytes []); [now rewrite app_nil_r | left; reflexivity]. }
  unfold Page.downloadBase64. rewrite Hatob.
  rewrite fill_bytes_exact; [reflexivity|].
  apply Forall_forall. intros z Hz. apply list_elem_of_In, in_map_iff in Hz as (b & <- & _).
  apply byte_value_range.
Qed.

Lemma download_of_any_rendering_witness :
  Page.downloadBase64 "TW
E" "single.xlsx"
  = Some {| Page.saved_blob := {| Page.blob_bytes := [77; 97]; Page.blob_type := xlsx_type |};
            Page.saved_as := "single.xlsx" |}.
Proof.
  exact (download_of_any_rendering (list_ascii_of_string "Ma") "TW
E" "single.xlsx" (or_intror eq_refl)).
Defined.

(* ===================================================================== *)
(** * More on the money display                                            *)
(* ===================================================================== *)

Lemma grouped_from_stable (fuel k : nat) (n : N) :
  (1 <= fuel)%nat -> (n < 2 ^ N.of_nat fuel)%N ->
  grouped_from (fuel + k) n = grouped_from fuel n.
Proof.
  revert n. induction fuel as [|fuel IH]; intros n Hfuel Hn; [lia|].
  cbn [Nat.add grouped_from].
  destruct (N.ltb_spec n 1000) as [Hsmall|Hbig]; [reflexivity|].
  destruct fuel as [|fuel].
  - change (2 ^ N.of_nat 1)%N with 2%N in Hn. lia.
  - rewrite IH; [reflexivity | lia |].
    rewrite Nat2N.inj_succ, N.pow_succ_r' in Hn.
    apply N.Div0.div_lt_upper_bound. lia.
Qed.

Lemma grouped_small (n : N) : (n < 1000)%N -> grouped n = JS.decimal n.
Proof.
  intros Hn. unfold grouped. cbn [grouped_from].
  destruct (N.ltb_spec n 1000); [reflexivity | lia].
Qed.

Lemma grouped_step (n : N) :
  (1000 <= n)%N -> grouped n = grouped (n / 1000) ++ "," ++ three_digits (n mod 1000).
Proof.
  intros Hn. unfold grouped at 1. cbn [grouped_from].
  destruct (N.ltb_spec n 1000); [lia|]. f_equal.
  assert (Hlt : (N.log2 (n / 1000) < N.log2 n)%N).
  { apply N.log2_lt_pow2.
    - apply N.div_str_pos. lia.
    - pose proof (N.log2_spec n ltac:(lia)) as [_ Hhi].
      rewrite N.pow_succ_r' in Hhi.
      apply N.Div0.div_lt_upper_bound. lia. }
  replace (N.to_nat (N.log2 n))
    with (S (N.to_nat (N.log2 (n / 1000)))
          + (N.to_nat (N.log2 n) - S (N.to_nat (N.log2 (n / 1000)))))%nat by lia.
  unfold grouped. apply grouped_from_stable; [lia | apply log2_fuel].
Qed.

Lemma decimal_thousands (n : N) :
  (1000 <= n)%N -> JS.decimal n = JS.decimal (n / 1000) ++ three_digits (n mod 1000).
Proof.
  intros Hn.
  rewrite (decimal_step n) by lia.
  rewrite (decimal_step (n / 10)) by lia_div.
  rewrite (decimal_step (n / 10 / 10)) by lia_div.
  rewrite !string_app_assoc. cbn [String.append]. unfold three_digits.
  replace (n / 10 / 10 / 10)%N with (n / 1000)%N by lia_div.
  replace ((n / 10 / 10) mod 10)%N with (n mod 1000 / 100)%N by lia_div.
  replace ((n / 10) mod 10)%N with ((n mod 1000 / 10) mod 10)%N by lia_div.
  replace (n mod 10)%N with ((n mod 1000) mod 10)%N by lia_div.
  reflexivity.
Qed.

Lemma digit_is_word (c : ascii) : JS.is_digit c = true -> JS.is_word_char c = true.
Proof.
  unfold JS.is_digit, JS.is_word_char. intros ->. reflexivity.
Qed.

Lemma digit_run_app (a u : string) :
  forallb JS.is_digit (list_ascii_of_string a) = true ->
  JS.digit_run (a ++ u) = (String.length a + JS.digit_run u)%nat.
Proof.
  induction a as [|c a IH]; cbn [forallb list_ascii_of_string]; intros H; [reflexivity|].
  apply andb_prop in H as [Hc Ha].
  cbn [String.append JS.digit_run String.length]. rewrite Hc, (IH Ha). reflexivity.
Qed.

(** The replacement on a run of digits in front of [u]. *)
Lemma group_from_digits (prev : option ascii) (a u : string) :
  forallb JS.is_digit (list_ascii_of_string a) = true ->
  JS.group_from prev (a ++ u)
  = group_digits prev a (JS.digit_run u) ++ JS.group_from (last_char prev a) u.
Proof.
  revert prev. induction a as [|c a IH]; intros prev H; [reflexivity|].
  cbn [forallb list_ascii_of_string] in H. apply andb_prop in H as [Hc Ha].
  cbn [String.append JS.group_from group_digits last_char].
  unfold JS.lookahead_thousands.
  change (String c (a ++ u)) with (String c a ++ u).
  rewrite digit_run_app by (cbn [forallb list_ascii_of_string]; now rewrite Hc, Ha).
  rewrite (IH (Some c) Ha), !string_app_assoc. reflexivity.
Qed.

Lemma mod3_shift (a j : nat) : ((a + 3 * j) mod 3 = a mod 3)%nat.
Proof. rewrite (Nat.mul_comm 3 j). apply Nat.Div0.mod_add. Qed.

Lemma group_digits_app (prev : option ascii) (a b : string) (r : nat) :
  group_digits prev (a ++ b) r
  = group_digits prev a (String.length b + r) ++ group_digits (last_char prev a) b r.
Proof.
  revert prev. induction a as [|c a IH]; intros prev; [reflexivity|].
  cbn [String.append group_digits last_char String.length].
  rewrite string_length_app, (IH (Some c)), !string_app_assoc.
  replace (S (String.length a + String.length b) + r)%nat
    with (S (String.length a) + (String.length b + r))%nat by lia.
  reflexivity.
Qed.

Lemma last_char_of_digits (prev : option ascii) (a : string) :
  forallb JS.is_digit (list_ascii_of_string a) = true -> (1 <= String.length a)%nat ->
  exists c, last_char prev a = Some c /\ JS.is_digit c = true.
Proof.
  revert prev. induction a as [|c a IH]; intros prev H Hlen; [cbn in Hlen; lia|].
  cbn [forallb list_ascii_of_string] in H. apply andb_prop in H as [Hc Ha].
  cbn [last_char]. destruct a as [|d a].
  - exists c. split; [reflexivity | exact Hc].
  - apply IH; [exact Ha | cbn; lia].
Qed.

(** One step of [group_digits], with the test on the number of digits left
    worked out. *)
Lemma group_digits_cons (prev : option ascii) (c : ascii) (rest : string) (j : nat) :
  group_digits prev (String c rest) (3 * j)
  = (if Bool.eqb (JS.is_word prev) (JS.is_word_char c)
        && (S (String.length rest) mod 3 =? 0)%nat
     then "," else "")
    ++ String c (group_digits (Some c) rest (3 * j)).
Proof.
  cbn [group_digits String.length JS.is_word].
  rewrite mod3_shift.
  destruct (Nat.ltb_spec 0 (S (String.length rest) + 3 * j)); [|lia].
  reflexivity.
Qed.

Lemma group_digits_nil (prev : option ascii) (r : nat) : group_digits prev "" r = "".
Proof. reflexivity. Qed.

(** Up to three digits after a character that is not a word character stay
    as they are. *)
Lemma group_digits_small (prev : option ascii) (n : N) (j : nat) :
  JS.is_word prev = false -> (n < 1000)%N ->
  group_digits prev (JS.decimal n) (3 * j) = JS.decimal n.
Proof.
  intros Hprev Hn.
  assert (Hw : forall d, (d < 10)%N -> JS.is_word_char (JS.digit_char d) = true)
    by (intros d Hd; apply digit_is_word, digit_char_is_digit, Hd).
  destruct (N.lt_ge_cases n 10) as [H10|H10].
  - rewrite decimal_small by exact H10.
    rewrite group_digits_cons, group_digits_nil, Hprev, Hw by exact H10. reflexivity.
  - destruct (N.lt_ge_cases n 100) as [H100|H100].
    + rewrite (decimal_step n), (decimal_small (n / 10)) by lia_div.
      cbn [String.append].
      rewrite !group_digits_cons, group_digits_nil, Hprev.
      cbn [JS.is_word]. rewrite !Hw by lia_div. reflexivity.
    + rewrite (decimal_step n), (decimal_step (n / 10)), (decimal_small (n / 10 / 10))
        by lia_div.
      cbn [String.append].
      rewrite !group_digits_cons, group_digits_nil, Hprev.
      cbn [JS.is_word]. rewrite !Hw by lia_div. reflexivity.
Qed.

(** Three digits after a digit, with a multiple of three digits to follow,
    get a comma in front. *)
Lemma group_digits_three (p : ascii) (r : N) (j : nat) :
  JS.is_digit p = true -> (r < 1000)%N ->
  group_digits (Some p) (three_digits r) (3 * j) = "," ++ three_digits r.
Proof.
  intros Hp Hr. unfold three_digits.
  rewrite !group_digits_cons, group_digits_nil.
  cbn [JS.is_word]. rewrite (digit_is_word _ Hp).
  rewrite !(digit_is_word (JS.digit_char _)) by (apply digit_char_is_digit; lia_div).
  reflexivity.
Qed.

(** The replacement groups the digits of a number in threes. *)
Lemma group_digits_decimal (n : N) :
  forall (prev : option ascii) (j : nat),
    JS.is_word prev = false ->
    group_digits prev (JS.decimal n) (3 * j) = grouped n.
Proof.
  induction n as [n IH] using (well_founded_induction N.lt_wf_0).
  intros prev j Hprev.
  destruct (N.lt_ge_cases n 1000) as [Hsmall|Hbig].
  - rewrite grouped_small by exact Hsmall. now apply group_digits_small.
  - rewrite decimal_thousands, grouped_step, group_digits_app by exact Hbig.
    change (String.length (three_digits (n mod 1000))) with 3%nat.
    replace (3 + 3 * j)%nat with (3 * S j)%nat by lia.
    rewrite (IH (n / 1000)%N) by (try exact Hprev; apply N.div_lt; lia).
    destruct (last_char_of_digits prev (JS.decimal (n / 1000))
                (decimal_all_digits _) (decimal_length_pos _)) as (c & -> & Hc).
    rewrite group_digits_three by (try exact Hc; apply N.mod_lt; lia).
    reflexivity.
Qed.

(** The point and the two decimals get no comma. *)
Lemma group_from_fraction (c d1 d0 : ascii) :
  JS.is_digit c = true -> JS.is_digit d1 = true -> JS.is_digit d0 = true ->
  JS.group_from (Some c) ("." ++ String d1 (String d0 ""))
  = "." ++ String d1 (String d0 "").
Proof.
  intros Hc H1 H0.
  cbn [String.append JS.group_from JS.is_word].
  unfold JS.lookahead_thousands. cbn [JS.digit_run].
  rewrite H1, H0, (digit_is_word _ Hc), (digit_is_word _ H1), (digit_is_word _ H0).
  reflexivity.
Qed.

Lemma small_magnitude_branch (q : Q) :
  (Qabs q < inject_Z (10 ^ 21))%Q -> Qle_bool (inject_Z (10 ^ 21)) (Qabs q) = false.
Proof.
  intros Hsmall.
  destruct (Qle_bool (inject_Z (10 ^ 21)) (Qabs q)) eqn:E; [|reflexivity].
  apply Qle_bool_iff in E. apply Qlt_not_le in Hsmall. contradiction.
Qed.

Lemma formatMoney_explicit (rt : JS.runtime) (q : Q) :
  (Qabs q < inject_Z (10 ^ 21))%Q ->
  Page.formatMoney rt (Some (JS.Num q))
  = "¥" ++ (if Qnum q <? 0 then "-" else "")
    ++ grouped (Z.to_N (JS.toFixed_n (Qabs q)) / 100)
    ++ "."
    ++ String (JS.digit_char ((Z.to_N (JS.toFixed_n (Qabs q)) / 10) mod 10))
         (String (JS.digit_char (Z.to_N (JS.toFixed_n (Qabs q)) mod 10)) "").
Proof.
  intros Hsmall. unfold Page.formatMoney.
  rewrite (toFixed2_digits rt q (small_magnitude_branch q Hsmall)).
  set (n := Z.to_N (JS.toFixed_n (Qabs q))).
  set (d1 := JS.digit_char ((n / 10) mod 10)).
  set (d0 := JS.digit_char (n mod 10)).
  assert (Hd1 : JS.is_digit d1 = true) by (apply digit_char_is_digit; lia_div).
  assert (Hd0 : JS.is_digit d0 = true) by (apply digit_char_is_digit; lia_div).
  assert (Hbody : forall prev, JS.is_word prev = false ->
            JS.group_from prev (JS.decimal (n / 100) ++ "." ++ String d1 (String d0 ""))
            = grouped (n / 100) ++ "." ++ String d1 (String d0 "")).
  { intros prev Hprev.
    rewrite group_from_digits by apply decimal_all_digits.
    change (JS.digit_run ("." ++ String d1 (String d0 ""))) with (3 * 0)%nat.
    rewrite group_digits_decimal by exact Hprev.
    destruct (last_char_of_digits prev (JS.decimal (n / 100))
                (decimal_all_digits _) (decimal_length_pos _)) as (c & -> & Hc).
    now rewrite group_from_fraction. }
  f_equal. unfold JS.replace_thousands.
  destruct (Qnum q <? 0).
  - cbn [String.append JS.group_from].
    change (JS.lookahead_thousands
              (String "-" (JS.decimal (n / 100) ++ String "." (String d1 (String d0 "")))))
      with false.
    rewrite andb_false_r. cbn [String.append]. f_equal.
    apply (Hbody (Some "-"%char)). reflexivity.
  - cbn [String.append]. apply (Hbody None). reflexivity.
Qed.

(** X11: for a number below 10^21 in magnitude [formatMoney] gives the yen
    sign, a minus sign for a negative number, the whole part with a comma
    between each group of three digits counted from the right, a point and two
    decimals, which never get a comma. *)
Theorem formatMoney_groups_in_threes (rt : JS.runtime) (q : Q) :
  (Qabs q < inject_Z (10 ^ 21))%Q ->
  Page.formatMoney rt (Some (JS.Num q))
  = "¥" ++ (if Qnum q <? 0 then "-" else "")
    ++ grouped (Z.to_N (JS.toFixed_n (Qabs q)) / 100)
    ++ "."
    ++ String (JS.digit_char ((Z.to_N (JS.toFixed_n (Qabs q)) / 10) mod 10))
         (String (JS.digit_char (Z.to_N (JS.toFixed_n (Qabs q)) mod 10)) "") /\
  (forall n : N,
      (1000 <= n)%N -> grouped n = grouped (n / 1000) ++ "," ++ three_digits (n mod 1000)) /\
  (forall n : N, (n < 1000)%N -> grouped n = JS.decimal n).
Proof.
  intros Hsmall. split; [exact (formatMoney_explicit rt q Hsmall)|].
  split; [exact grouped_step | exact grouped_small].
Qed.

Lemma formatMoney_groups_in_threes_witness :
  Page.formatMoney sample_runtime (Some (JS.Num (-123456789 # 1))) = "¥-123,456,789.00".
Proof.
  assert (H : (Qabs (-123456789 # 1) < inject_Z (10 ^ 21))%Q) by (vm_compute; reflexivity).
  exact (proj1 (formatMoney_groups_in_threes sample_runtime (-123456789 # 1) H)).
Defined.

Lemma toFixed_n_zero (x : Q) : (0 <= x)%Q -> (x < 1 # 200)%Q -> JS.toFixed_n x = 0.
Proof.
  intros H0 Hx.
  destruct (toFixed_n_nearest x H0) as (Hn & Hlo & _).
  assert (Hlt : (inject_Z (JS.toFixed_n x) < inject_Z 1)%Q).
  { change (inject_Z 1) with 1%Q. lra. }
  rewrite <- Zlt_Qlt in Hlt. lia.
Qed.

(** X12: an amount of less than half a cent in magnitude is displayed as
    zero, and a negative one keeps its sign: it reads "-0.00". *)
Theorem tiny_amounts_display_as_zero (rt : JS.runtime) (q : Q) :
  (Qabs q < 1 # 200)%Q ->
  Page.formatMoney rt (Some (JS.Num q)) = (if Qnum q <? 0 then "¥-0.00" else "¥0.00").
Proof.
  intros Htiny.
  assert (Hsmall : (Qabs q < inject_Z (10 ^ 21))%Q).
  { eapply Qlt_trans; [exact Htiny|]. reflexivity. }
  rewrite (formatMoney_explicit rt q Hsmall).
  rewrite (toFixed_n_zero (Qabs q) (Qabs_nonneg q) Htiny).
  destruct (Qnum q <? 0); reflexivity.
Qed.

Lemma tiny_amounts_display_as_zero_witness :
  Page.formatMoney sample_runtime (Some (JS.Num (-1 # 1000))) = "¥-0.00".
Proof.
  assert (H : (Qabs (-1 # 1000) < 1 # 200)%Q) by (vm_compute; reflexivity).
  exact (tiny_amounts_display_as_zero sample_runtime (-1 # 1000) H).
Defined.

(* ===================================================================== *)
(** * What the page displays during a session                              *)
(* ===================================================================== *)

Lemma displayed_under_invariant (rt : JS.runtime) (s : Events.Session) :
  session_invariant s ->
  (forall m, Page.error_box (Page.Home rt (Events.ui s)) = Some m ->
     JS.truthy m = true /\
     Page.results (Page.Home rt (Events.ui s)) = Page.Hidden /\
     Page.submit_disabled (Page.Home rt (Events.ui s)) = false) /\
  (Page.submit_disabled (Page.Home rt (Events.ui s)) = true ->
     Page.error_box (Page.Home rt (Events.ui s)) = None /\
     Page.results (Page.Home rt (Events.ui s)) = Page.Hidden /\
     (1 <= Events.in_flight s)%nat) /\
  (Page.results (Page.Home rt (Events.ui s)) <> Page.Hidden ->
     exists data, Page.result (Events.ui s) = Some data /\ JS.truthy data = true) /\
  (Page.status (Events.ui s) = Page.done ->
     Page.results (Page.Home rt (Events.ui s)) = Page.Hidden ->
     exists data, Page.result (Events.ui s) = Some data /\ JS.truthy data = false).
Proof.
  intros (_ & _ & _ & _ & Hup & Hdone & Herr).
  unfold Page.Home; cbn [Page.error_box Page.results Page.submit_disabled].
  destruct (Page.status (Events.ui s)) eqn:Hs; cbn [Page.Status_eqb].
  - repeat split; try discriminate; congruence.
  - repeat split; try discriminate; try congruence.
    now destruct (Hup eq_refl).
  - specialize (Hdone eq_refl).
    destruct (Page.result (Events.ui s)) as [data|]; [|congruence].
    repeat split; try discriminate.
    + intros Hshown. exists data. split; [reflexivity|].
      destruct (JS.truthy data); [reflexivity|congruence].
    + intros _ Hhidden. exists data. split; [reflexivity|].
      destruct (JS.truthy data); [|reflexivity].
      destruct (Page.as_CalcResult data); discriminate.
  - specialize (Herr eq_refl).
    repeat split; try discriminate; congruence.
Qed.

(** X13: in every session, the error box, when displayed, holds a message that
    is not empty, and is displayed neither with the results nor with the
    disabled button; the button is disabled only while a request is in flight,
    and then neither the box nor the results are displayed; results are
    displayed only for a stored truthy response body; and a status done with
    nothing displayed means that the body stored is falsy (false, 0 or an
    empty string). *)
Theorem page_displays_one_outcome
    (rt : JS.runtime) (now : Page.Date) (events : list Events.Event) :
  (forall m,
     Page.error_box (Page.Home rt (Events.ui (Events.run rt events (Events.start now))))
     = Some m ->
     JS.truthy m = true /\
     Page.results (Page.Home rt (Events.ui (Events.run rt events (Events.start now))))
     = Page.Hidden /\
     Page.submit_disabled (Page.Home rt (Events.ui (Events.run rt events (Events.start now))))
     = false) /\
  (Page.submit_disabled (Page.Home rt (Events.ui (Events.run rt events (Events.start now))))
   = true ->
     Page.error_box (Page.Home rt (Events.ui (Events.run rt events (Events.start now))))
     = None /\
     Page.results (Page.Home rt (Events.ui (Events.run rt events (Events.start now))))
     = Page.Hidden /\
     (1 <= Events.in_flight (Events.run rt events (Events.start now)))%nat) /\
  (Page.results (Page.Home rt (Events.ui (Events.run rt events (Events.start now))))
   <> Page.Hidden ->
     exists data,
       Page.result (Events.ui (Events.run rt events (Events.start now))) = Some data /\
       JS.truthy data = true) /\
  (Page.status (Events.ui (Events.run rt events (Events.start now))) = Page.done ->
   Page.results (Page.Home rt (Events.ui (Events.run rt events (Events.start now))))
   = Page.Hidden ->
     exists data,
       Page.result (Events.ui (Events.run rt events (Events.start now))) = Some data /\
       JS.truthy data = false).
Proof.
  exact (displayed_under_invariant rt _ (invariant_run rt events _ (invariant_at_start now))).
Qed.
